(** * Health-check script: prompt builder and pipeline

    A shallow embedding of [app/prompts.py] and [hello.py].

    Python [str] values are modelled by [String.string], a text by the
    bytes of its UTF-8 form; every literal of the two files is ASCII.  [None]-able arguments are [option]s.  The
    calls into third-party packages (numpy, pandas, click, openai) are the
    fields of a [World] record: the pipeline is a function of the answers
    the world gives, and it produces the list of things it printed and
    called, together with the way it ended. *)

From Stdlib Require Import String Ascii List Bool Arith ZArith QArith Lia.
From Stdlib Require Import DecimalString.
Import ListNotations.

Local Close Scope Q_scope.
Local Open Scope string_scope.
Local Open Scope list_scope.

Set Implicit Arguments.

(* ===================================================================== *)
(** ** Python string operations used by the two files *)
(* ===================================================================== *)

Module PyStr.

(** The line feed, written [\n] in the Python literals. *)
Definition LF : ascii := ascii_of_nat 10.

(** [s.startswith(p)]. *)
Fixpoint startswith (p s : string) : bool :=
  match p, s with
  | EmptyString, _ => true
  | String _ _, EmptyString => false
  | String a p', String b s' => Ascii.eqb a b && startswith p' s'
  end.

(** [t in s]: [t] occurs in [s] as a contiguous substring. *)
Fixpoint contains (t s : string) : bool :=
  startswith t s ||
  match s with
  | EmptyString => false
  | String _ s' => contains t s'
  end.

(** [sep.join(parts)]. *)
Fixpoint join (sep : string) (parts : list string) : string :=
  match parts with
  | [] => ""
  | [p] => p
  | p :: rest => p ++ sep ++ join sep rest
  end.

(** [s * n]. *)
Fixpoint repeat_str (s : string) (n : nat) : string :=
  match n with
  | O => ""
  | S n' => s ++ repeat_str s n'
  end.

(** [c not in s] for a single character. *)
Fixpoint free_of (c : ascii) (s : string) : bool :=
  match s with
  | EmptyString => true
  | String a s' => negb (Ascii.eqb a c) && free_of c s'
  end.

(** [s.split(c)] for a one-character separator. *)
Fixpoint split_on (c : ascii) (s : string) : list string :=
  match s with
  | EmptyString => [""]
  | String a s' =>
      if Ascii.eqb a c then "" :: split_on c s'
      else match split_on c s' with
           | [] => [String a ""]
           | w :: ws => String a w :: ws
           end
  end.

(** Truthiness of an optional string: [None] and [""] are falsy. *)
Definition truthy (o : option string) : bool :=
  match o with
  | None => false
  | Some EmptyString => false
  | Some (String _ _) => true
  end.

End PyStr.

(* ===================================================================== *)
(** ** app/prompts.py *)
(* ===================================================================== *)

Module Prompts.
Import PyStr.

Definition nl : string := String LF "".

Definition SYSTEM_MESSAGE : string :=
  "You are a helpful data analyst assistant.".

(** The three literals every prompt starts from. *)
Definition INTRO : string :=
  "Here are two sample datasets in Markdown format.".
Definition DATASET1_LABEL : string := nl ++ "Dataset 1 (Generated):".
Definition DATASET2_LABEL : string := nl ++ "Dataset 2 (From CSV):".

(** The question of the [if] branch (adjacent literals are concatenated
    by the Python parser). *)
Definition COMPARATIVE_SENTENCE : string :=
  "Please provide a brief description of each dataset, " ++
  "mentioning the features and potential target variables. " ++
  "What kind of simple analysis could be performed on each, " ++
  "or potentially by combining them?".
Definition COMPARATIVE_QUESTION : string := nl ++ COMPARATIVE_SENTENCE.

(** The question of the [else] branch. *)
Definition SINGLE_SENTENCE : string :=
  "Please provide a brief description of this dataset, " ++
  "mentioning the features and potential target variable. " ++
  "What kind of simple analysis could be performed on this data?".
Definition SINGLE_QUESTION : string := nl ++ SINGLE_SENTENCE.

(** The list [prompt_parts] as it stands when [join] is called: the
    three initial elements, then what [extend] or [append] added. *)
Definition prompt_parts (generated_markdown : string)
           (csv_markdown : option string) : list string :=
  let prompt_parts := [INTRO; DATASET1_LABEL; generated_markdown] in
  match csv_markdown with
  | Some c =>
      if truthy csv_markdown
      then prompt_parts ++ [DATASET2_LABEL; c; COMPARATIVE_QUESTION]
      else prompt_parts ++ [SINGLE_QUESTION]
  | None => prompt_parts ++ [SINGLE_QUESTION]
  end.

Definition get_user_prompt (generated_markdown : string)
           (csv_markdown : option string) : string :=
  join (nl ++ nl) (prompt_parts generated_markdown csv_markdown).

End Prompts.

(* ===================================================================== *)
(** ** Python exceptions, and a monad for the effects of hello.py *)
(* ===================================================================== *)

Module Py.

(** An exception object: the names of its class and of the ancestors of
    that class (its method resolution order), and [str(e)]. *)
Record exn : Type := MkExn { exc_mro : list string; exc_msg : string }.

(** [isinstance(e, cls)]. *)
Definition isinstance (e : exn) (cls : string) : bool :=
  existsb (String.eqb cls) (exc_mro e).

(** [isinstance(e, (c1, ..., cn))], the test of an [except] clause. *)
Definition isinstance_any (e : exn) (classes : list string) : bool :=
  existsb (isinstance e) classes.

(** How a block of statements ends. *)
Inductive result (A : Type) : Type :=
| Ok (a : A)
| Raise (e : exn).
Arguments Ok {A} a.
Arguments Raise {A} e.

(** Builders for exceptions of the built-in classes the file names. *)
Definition ValueError (msg : string) : exn :=
  MkExn ["ValueError"; "Exception"; "BaseException"] msg.
Definition TypeError (msg : string) : exn :=
  MkExn ["TypeError"; "Exception"; "BaseException"] msg.
Definition KeyError (msg : string) : exn :=
  MkExn ["KeyError"; "LookupError"; "Exception"; "BaseException"] msg.
Definition IndexError (msg : string) : exn :=
  MkExn ["IndexError"; "LookupError"; "Exception"; "BaseException"] msg.
Definition ImportError (msg : string) : exn :=
  MkExn ["ImportError"; "Exception"; "BaseException"] msg.
Definition FileNotFoundError (msg : string) : exn :=
  MkExn ["FileNotFoundError"; "OSError"; "Exception"; "BaseException"] msg.
Definition ConnectionError (msg : string) : exn :=
  MkExn ["ConnectionError"; "OSError"; "Exception"; "BaseException"] msg.

End Py.

Module External.
Import Py.

(** A pandas DataFrame: named columns and the records under them. *)
Record DataFrame (A : Type) : Type :=
  MkDataFrame { columns : list string; rows : list (list A) }.

(** A cell: a float (by its rational value), an integer or text. *)
Inductive cell : Type :=
| CFloat (q : Q)
| CInt (z : Z)
| CStr (s : string).

(** The client object [OpenAI()] returns. *)
Inductive OpenAIClient : Type := MkClient.

(** One element of [messages]: [{"role": ..., "content": ...}]. *)
Record message : Type := MkMessage { role : string; content : string }.

(** The reply of the chat endpoint, as far as line 117 reads it:
    [response.choices[i].message.content]. *)
Record Choice : Type := MkChoice { message_content : string }.
Record ChatCompletion : Type := MkChatCompletion { choices : list Choice }.

(** What the run finds outside itself.  Each field is the answer of one
    third-party call; a call that can fail answers with a [result]. *)
Record World : Type := MkWorld {
  (** [from app import prompts] at import time *)
  import_prompts : result unit;
  (** [OpenAI()] at import time *)
  openai_ctor : result OpenAIClient;
  (** the raw draws of numpy's generator, in the order they are taken *)
  rand_raw : nat -> N;
  (** [pd.read_csv(path)] *)
  read_csv : string -> result (DataFrame cell);
  (** [df.to_string()] *)
  to_string : DataFrame cell -> string;
  (** [df.to_markdown(index=False)] *)
  to_markdown : DataFrame cell -> result string;
  (** [CLIENT.chat.completions.create(model=..., messages=...)] *)
  chat_create : string -> list message -> result ChatCompletion
}.

(** What the run does that can be seen from outside, in order. *)
Inductive event : Type :=
| Stdout (s : string)
| Stderr (s : string)
| CallRand (nrows ncols : nat)
| CallReadCsv (path : string)
| CallToMarkdown (df : DataFrame cell)
| CallGetUserPrompt (generated_markdown : string)
                    (csv_markdown : option string)
| CallChatCreate (model : string) (messages : list message).


(** A block of statements: given the world, the events it produced and
    how it ended. *)
Definition M (A : Type) : Type := World -> list event * result A.

Definition ret {A} (a : A) : M A := fun _ => ([], Ok a).

Definition raise {A} (e : exn) : M A := fun _ => ([], Raise e).

Definition bind {A B} (m : M A) (k : A -> M B) : M B :=
  fun w =>
    match m w with
    | (t, Ok a) => let (t', r) := k a w in (t ++ t', r)
    | (t, Raise e) => (t, Raise e)
    end.

(** One [except classes as e: handler] clause. *)
Definition except_clause (A : Type) : Type := (list string * (exn -> M A))%type.

(** The first clause whose classes [e] is an instance of. *)
Fixpoint select_handler {A} (clauses : list (except_clause A)) (e : exn)
  : option (M A) :=
  match clauses with
  | [] => None
  | (classes, h) :: rest =>
      if isinstance_any e classes then Some (h e)
      else select_handler rest e
  end.

(** [try: body  except ...: ...]: an exception no clause matches goes on
    to the caller. *)
Definition try_except {A} (body : M A) (clauses : list (except_clause A))
  : M A :=
  fun w =>
    match body w with
    | (t, Ok a) => (t, Ok a)
    | (t, Raise e) =>
        match select_handler clauses e with
        | Some h => let (t', r) := h w in (t ++ t', r)
        | None => (t, Raise e)
        end
    end.

(** Emit one event. *)
Definition emit (ev : event) : M unit := fun _ => ([ev], Ok tt).

(** Read a field of the world. *)
Definition ask {A} (f : World -> result A) : M A := fun w => ([], f w).

(** Read a field of the world, noting the call. *)
Definition call {A} (ev : event) (f : World -> result A) : M A :=
  fun w => ([ev], f w).

End External.

Declare Scope py_scope.
Delimit Scope py_scope with py.
Notation "x <- m ;; k" := (External.bind m (fun x => k))
  (at level 61, m at next level, right associativity) : py_scope.
Notation "m ;; k" := (External.bind m (fun _ => k))
  (at level 61, right associativity) : py_scope.

(* ===================================================================== *)
(** ** hello.py *)
(* ===================================================================== *)

Module Hello.
Import PyStr Py External.
Local Open Scope py_scope.

(** [click.echo(s)] and [print(s)] write a line to standard output,
    [click.echo(s, err=True)] to standard error. *)
Definition echo (s : string) : M unit := emit (Stdout s).
Definition echo_err (s : string) : M unit := emit (Stderr s).

(** Modelled from the spec: one draw of numpy's generator, which is not
    part of the repository.  The spec says of it only that each cell is a
    pseudo-random floating value in [0,1); the draw is taken as the double
    [k / 2^53] for the 53 low bits [k] of the generator's raw output. *)
Definition unit_sample (raw : N) : Q :=
  Qmake (Z.of_N (N.modulo raw (2 ^ 53))) (2 ^ 53).

(** Modelled from the spec: [np.random.rand(nrows, ncols)], an array of
    [nrows] rows of [ncols] draws each, filled row by row. *)
Definition np_random_rand (nrows ncols : nat) : M (list (list Q)) :=
  fun w =>
    ([CallRand nrows ncols],
     Ok (map (fun i =>
                map (fun j => unit_sample (rand_raw w (i * ncols + j)))
                    (seq 0 ncols))
             (seq 0 nrows))).

(** [pd.DataFrame(data, columns=columns)] on an array of floats. *)
Definition pd_DataFrame (data : list (list Q)) (columns : list string)
  : DataFrame cell :=
  MkDataFrame columns (map (map CFloat) data).

Definition pd_read_csv (path : string) : M (DataFrame cell) :=
  call (CallReadCsv path) (fun w => read_csv w path).

Definition df_to_string (df : DataFrame cell) : M string :=
  ask (fun w => Ok (to_string w df)).

Definition df_to_markdown (df : DataFrame cell) : M string :=
  call (CallToMarkdown df) (fun w => to_markdown w df).

(** [prompts.get_user_prompt(...)]: the call is noted, the value is the
    function of app/prompts.py. *)
Definition prompts_get_user_prompt (generated_markdown : string)
           (csv_markdown : option string) : M string :=
  fun _ => ([CallGetUserPrompt generated_markdown csv_markdown],
            Ok (Prompts.get_user_prompt generated_markdown csv_markdown)).

Definition client_chat_create (model : string) (messages : list message)
  : M ChatCompletion :=
  call (CallChatCreate model messages) (fun w => chat_create w model messages).

(** [l[0]]. *)
Definition index0 {A} (l : list A) : M A :=
  match l with
  | [] => raise (IndexError "list index out of range")
  | x :: _ => ret x
  end.

(** The module's globals once its top-level statements have run. *)
Record Globals : Type := MkGlobals {
  prompts : bool;               (* the module object, or [None] *)
  CLIENT : option OpenAIClient
}.

Definition CSV_FILE_PATH : string := "data/sample_data.csv".

(** [print("-" * 30)]. *)
Definition dashes : string := repeat_str "-" 30.

(** Lines 16-30: the two guarded initialisations. *)
Definition module_init : M Globals :=
  prompts <- try_except
      (ask import_prompts ;; ret true)
      [ (["ImportError"], fun _ =>
           echo "Error: Could not import prompts from 'app' directory." ;;
           echo "Ensure 'app/prompts.py' exists and the 'app' directory is accessible." ;;
           ret false) ] ;;
  CLIENT <- try_except
      (c <- ask openai_ctor ;; ret (Some c))
      [ (["ValueError"; "TypeError"], fun api_error =>
           echo ("Error initializing OpenAI client: " ++ exc_msg api_error) ;;
           echo "Please ensure the OPENAI_API_KEY environment variable is set." ;;
           ret None) ] ;;
  ret (MkGlobals prompts CLIENT).

(** Lines 62-66: the sample table. *)
Definition generate_sample : M (DataFrame cell) :=
  echo "Generating sample DataFrame..." ;;
  data <- np_random_rand 5 3 ;;
  let columns := ["Feature_A"; "Feature_B"; "Target"] in
  ret (pd_DataFrame data columns).

(** Lines 71-89: the CSV file.  The value is [csv_markdown_table], which
    is [None] unless the assignment of line 82 was reached; the
    statements after it in the [try] body only print. *)
Definition read_csv_stage : M (option string) :=
  echo ("Attempting to read CSV file: " ++ CSV_FILE_PATH ++ "...") ;;
  csv_markdown_table <- try_except
      (csv_df <- pd_read_csv CSV_FILE_PATH ;;
       echo "CSV file read successfully:" ;;
       s <- df_to_string csv_df ;;
       echo s ;;
       echo dashes ;;
       echo "Converting CSV DataFrame to Markdown..." ;;
       csv_markdown_table <- df_to_markdown csv_df ;;
       echo "CSV Markdown Table:" ;;
       echo csv_markdown_table ;;
       ret (Some csv_markdown_table))
      [ (["FileNotFoundError"], fun _ =>
           echo_err ("Warning: CSV file not found at " ++ CSV_FILE_PATH ++ ".") ;;
           ret None);
        (["EmptyDataError"; "ParserError"], fun csv_error =>
           echo_err ("Error reading CSV file: " ++ exc_msg csv_error) ;;
           ret None) ] ;;
  echo dashes ;;
  ret csv_markdown_table.

(** Lines 92-97: the Markdown form of the sample table. *)
Definition markdown_stage (generated_df : DataFrame cell) : M string :=
  echo "Converting generated DataFrame to Markdown..." ;;
  generated_markdown_table <- df_to_markdown generated_df ;;
  echo "Generated Markdown Table:" ;;
  echo generated_markdown_table ;;
  echo dashes ;;
  ret generated_markdown_table.

(** Lines 99-125: the prompt, the remote call and the last two lines. *)
Definition openai_stage (generated_markdown_table : string)
           (csv_markdown_table : option string) : M unit :=
  echo "Sending data to OpenAI API for analysis..." ;;
  prompt <- prompts_get_user_prompt generated_markdown_table
                                    csv_markdown_table ;;
  try_except
      (response <- client_chat_create "gpt-3.5-turbo"
           [ MkMessage "system" Prompts.SYSTEM_MESSAGE;
             MkMessage "user" prompt ] ;;
       choice <- index0 (choices response) ;;
       let ai_response := message_content choice in
       echo "OpenAI API Response:" ;;
       echo ai_response)
      [ (["ValueError"; "TypeError"; "KeyError"], fun openai_error =>
           echo_err ("Error calling OpenAI API: " ++ exc_msg openai_error)) ] ;;
  echo dashes ;;
  echo "Health check complete.".

(** Lines 60-97: everything between the two guards and the remote stage;
    the value is the pair of Markdown tables handed to the prompt. *)
Definition prepare_tables : M (string * option string) :=
  echo "Performing data science health check..." ;;
  generated_df <- generate_sample ;;
  echo "Sample DataFrame created:" ;;
  s <- df_to_string generated_df ;;
  echo s ;;
  echo dashes ;;
  csv_markdown_table <- read_csv_stage ;;
  generated_markdown_table <- markdown_stage generated_df ;;
  ret (generated_markdown_table, csv_markdown_table).

Definition health_check (g : Globals) : M unit :=
  match CLIENT g with
  | None => echo_err "OpenAI client not initialized. Cannot proceed."
  | Some _ =>
      if negb (prompts g)
      then echo_err "Prompts module not loaded. Cannot proceed."
      else
        tables <- prepare_tables ;;
        openai_stage (fst tables) (snd tables)
  end.

(** Running the file as a script: the top-level statements, then the
    command. *)
Definition main : M unit :=
  g <- module_init ;;
  health_check g.

End Hello.

(* ===================================================================== *)
(** ** The Markdown form of a table, as the specification words it *)
(* ===================================================================== *)

Module Formatter.
Import PyStr Py External.

(** Modelled from the spec: the error the specification names for a
    table without columns; hello.py defines no such class. *)
Definition FormatError : exn :=
  MkExn ["FormatError"; "Exception"; "BaseException"]
        "table has no columns".

(** Modelled from the spec: one row of a MarkdownTable, the cells
    between vertical bars. *)
Definition md_row (cells : list string) : string :=
  "| " ++ join " | " cells ++ " |".

(** Modelled from the spec: the separator row under the header, one
    group per column. *)
Definition md_separator (ncols : nat) : string :=
  "|" ++ repeat_str "---|" ncols.

(** Modelled from the spec: header row, separator row, then one row per
    record; the rows carry the cells of the record and nothing else (no
    index column). *)
Definition md_lines {A} (show : A -> string) (df : DataFrame A)
  : list string :=
  md_row (columns df)
  :: md_separator (length (columns df))
  :: map (fun r => md_row (map show r)) (rows df).

(** Modelled from the spec: [to_markdown(table)].  The conversion is
    pandas' [DataFrame.to_markdown], which is not part of the repository;
    hello.py only calls it.  The spec: "returns its MarkdownTable string
    with header row and one row per record, no row-index column. Must fail
    with FormatError if the table has zero columns; zero rows is
    acceptable (header-only output)", a MarkdownTable being "header row,
    separator row, one row per record". *)
Definition to_markdown {A} (show : A -> string) (df : DataFrame A)
  : result string :=
  match columns df with
  | [] => Raise FormatError
  | _ :: _ => Ok (join Prompts.nl (md_lines show df))
  end.

(** The lines of a rendered table. *)
Definition lines (s : string) : list string := split_on LF s.

(** The cells of a rendered row: what stands between its bars. *)
Definition row_cells (line : string) : list string :=
  match split_on "|"%char line with
  | _ :: rest => removelast rest
  | [] => []
  end.

(** Decimal text of an integer cell. *)
Definition show_Z (z : Z) : string := NilZero.string_of_int (Z.to_int z).

End Formatter.

(* ===================================================================== *)
(** ** Sample worlds *)
(* ===================================================================== *)

Module Samples.
Import PyStr Py External Hello.

(** A rendering of cells for the sample worlds. *)
Definition show_cell (c : cell) : string :=
  match c with
  | CFloat q => Formatter.show_Z (Qnum q) ++ "/" ++ Formatter.show_Z (Zpos (Qden q))
  | CInt z => Formatter.show_Z z
  | CStr s => s
  end.

Definition sample_reply : ChatCompletion :=
  MkChatCompletion [MkChoice "Both tables hold numeric features."].

(** Everything is in place: key set, CSV file present, service up. *)
Definition w_ok : World :=
  MkWorld (Ok tt) (Ok MkClient)
          (fun n => (N.of_nat n * 1234567891234567)%N)
          (fun _ => Ok (MkDataFrame ["id"; "name"] [[CInt 1; CStr "a"]]))
          (fun _ => "<table>")
          (Formatter.to_markdown show_cell)
          (fun _ _ => Ok sample_reply).

(** The CSV file is missing. *)
Definition w_no_csv : World :=
  MkWorld (Ok tt) (Ok MkClient) (rand_raw w_ok)
          (fun _ => Raise (FileNotFoundError "No such file or directory"))
          (to_string w_ok) (to_markdown w_ok) (chat_create w_ok).

(** The service answers with a value error. *)
Definition w_value_error : World :=
  MkWorld (Ok tt) (Ok MkClient) (rand_raw w_ok) (read_csv w_ok)
          (to_string w_ok) (to_markdown w_ok)
          (fun _ _ => Raise (ValueError "bad request")).

(** The connection to the service fails. *)
Definition w_transport : World :=
  MkWorld (Ok tt) (Ok MkClient) (rand_raw w_ok) (read_csv w_ok)
          (to_string w_ok) (to_markdown w_ok)
          (fun _ _ => Raise (ConnectionError "Connection error.")).

(** The service answers with a reply that has no choices. *)
Definition w_empty_choices : World :=
  MkWorld (Ok tt) (Ok MkClient) (rand_raw w_ok) (read_csv w_ok)
          (to_string w_ok) (to_markdown w_ok)
          (fun _ _ => Ok (MkChatCompletion [])).

(** No key in the environment: the constructor raises. *)
Definition w_no_key : World :=
  MkWorld (Ok tt) (Raise (ValueError "api_key must be set"))
          (rand_raw w_ok) (read_csv w_ok)
          (to_string w_ok) (to_markdown w_ok) (chat_create w_ok).

Definition globals_ok : Globals := MkGlobals true (Some MkClient).

End Samples.

(* ===================================================================== *)
(** ** Reading a run *)
(* ===================================================================== *)

Module Observe.
Import Py External.

(** The calls of one kind among the events of a run. *)
Definition is_rand_call (ev : event) : bool :=
  match ev with CallRand _ _ => true | _ => false end.
Definition is_read_csv_call (ev : event) : bool :=
  match ev with CallReadCsv _ => true | _ => false end.
Definition is_to_markdown_call (ev : event) : bool :=
  match ev with CallToMarkdown _ => true | _ => false end.
Definition is_prompt_call (ev : event) : bool :=
  match ev with CallGetUserPrompt _ _ => true | _ => false end.
Definition is_chat_call (ev : event) : bool :=
  match ev with CallChatCreate _ _ => true | _ => false end.

(** How many events of a run satisfy [p]. *)
Definition count (p : event -> bool) (t : list event) : nat :=
  length (filter p t).

(** The last event of a run, if it has one. *)
Definition last_event (t : list event) : option event :=
  match rev t with
  | [] => None
  | ev :: _ => Some ev
  end.

End Observe.

Module MoreSamples.
Import PyStr Py External Hello Samples.

(** [app/prompts.py] cannot be imported. *)
Definition w_no_prompts : World :=
  MkWorld (Raise (ImportError "No module named 'app'")) (Ok MkClient)
          (rand_raw w_ok) (read_csv w_ok)
          (to_string w_ok) (to_markdown w_ok) (chat_create w_ok).

(** The constructor raises an error of the client library's own class. *)
Definition OpenAIError (msg : string) : exn :=
  MkExn ["OpenAIError"; "Exception"; "BaseException"] msg.
Definition w_ctor_crash : World :=
  MkWorld (Ok tt) (Raise (OpenAIError "The api_key client option must be set"))
          (rand_raw w_ok) (read_csv w_ok)
          (to_string w_ok) (to_markdown w_ok) (chat_create w_ok).

(** The CSV file exists but may not be read. *)
Definition PermissionError (msg : string) : exn :=
  MkExn ["PermissionError"; "OSError"; "Exception"; "BaseException"] msg.
Definition w_csv_denied : World :=
  MkWorld (Ok tt) (Ok MkClient) (rand_raw w_ok)
          (fun _ => Raise (PermissionError "Permission denied"))
          (to_string w_ok) (to_markdown w_ok) (chat_create w_ok).

(** No CSV file, and the Markdown conversion is not installed. *)
Definition w_no_tabulate : World :=
  MkWorld (Ok tt) (Ok MkClient) (rand_raw w_ok) (read_csv w_no_csv)
          (to_string w_ok)
          (fun _ => Raise (ImportError "Missing optional dependency 'tabulate'."))
          (chat_create w_ok).

(** The service sends two choices. *)
Definition w_two_choices : World :=
  MkWorld (Ok tt) (Ok MkClient) (rand_raw w_ok) (read_csv w_ok)
          (to_string w_ok) (to_markdown w_ok)
          (fun _ _ => Ok (MkChatCompletion [MkChoice "first"; MkChoice "second"])).

(** The CSV file is read, but the conversion of its table fails the way
    a parser does. *)
Definition ParserError (msg : string) : exn :=
  MkExn ["ParserError"; "ValueError"; "Exception"; "BaseException"] msg.
Definition w_bad_table : World :=
  MkWorld (Ok tt) (Ok MkClient) (rand_raw w_ok) (read_csv w_ok)
          (to_string w_ok)
          (fun _ => Raise (ParserError "Error tokenizing data"))
          (chat_create w_ok).

End MoreSamples.

(* ===================================================================== *)
(** ** app/prompts.py, statement by statement *)
(* ===================================================================== *)

(** The body of [get_user_prompt] builds its result in a list object that
    it changes in place ([extend], [append]).  Here the statements are run
    one after the other over a store of list objects, in a world they
    could print to or call into, so that what the function reads and what
    it changes can be stated. *)
Module Store.
Import PyStr Py External.

(** A reference to a list object: its place in the store. *)
Definition ref : Type := nat.

(** The list objects alive at some point, oldest first. *)
Definition heap : Type := list (list string).

(** A block of statements over the store: given the store and the world,
    the events it produced, the store it leaves and how it ended. *)
Definition H (A : Type) : Type :=
  heap -> World -> list event * heap * result A.

Definition hret {A} (a : A) : H A := fun h _ => ([], h, Ok a).

Definition hbind {A B} (m : H A) (k : A -> H B) : H B :=
  fun h w =>
    match m h w with
    | (t, h', Ok a) =>
        match k a h' w with
        | (t', h'', r) => (t ++ t', h'', r)
        end
    | (t, h', Raise e) => (t, h', Raise e)
    end.

(** A block of hello.py's kind run inside a block over the store: it may
    print and call, and leaves the store alone. *)
Definition lift {A} (m : M A) : H A :=
  fun h w => match m w with (t, r) => (t, h, r) end.

(** The events, the final store and the outcome of a run. *)
Definition events_of {A} (x : list event * heap * result A) : list event :=
  fst (fst x).
Definition heap_of {A} (x : list event * heap * result A) : heap :=
  snd (fst x).
Definition outcome_of {A} (x : list event * heap * result A) : result A :=
  snd x.

(** A list display [[x1, ..., xn]]: a new object, at the end of the
    store. *)
Definition new_list (xs : list string) : H ref :=
  fun h _ => ([], h ++ [xs], Ok (length h)).

(** The object stored at [r], replaced. *)
Definition store_at (r : ref) (xs : list string) (h : heap) : heap :=
  firstn r h ++ xs :: skipn (S r) h.

(** Reading through a reference; a reference to nothing cannot arise
    from the statements below and is reported as an error. *)
Definition list_get (r : ref) : H (list string) :=
  fun h _ =>
    match nth_error h r with
    | Some xs => ([], h, Ok xs)
    | None => ([], h, Raise (MkExn ["SystemError"; "Exception"; "BaseException"]
                                   "dangling reference"))
    end.

Definition list_set (r : ref) (xs : list string) : H unit :=
  fun h _ => ([], store_at r xs h, Ok tt).

(** [l.extend(src)]: the elements of [src] are added to the object [l]. *)
Definition list_extend (l src : ref) : H unit :=
  hbind (list_get l) (fun xs =>
  hbind (list_get src) (fun ys =>
  list_set l (xs ++ ys))).

(** [l.append(x)]. *)
Definition list_append (l : ref) (x : string) : H unit :=
  hbind (list_get l) (fun xs => list_set l (xs ++ [x])).

(** [sep.join(l)]. *)
Definition str_join (sep : string) (l : ref) : H string :=
  hbind (list_get l) (fun xs => hret (join sep xs)).

(** The body of [get_user_prompt], lines 17-39. *)
Definition get_user_prompt_stateful (generated_markdown : string)
           (csv_markdown : option string) : H string :=
  hbind (new_list [Prompts.INTRO; Prompts.DATASET1_LABEL; generated_markdown])
        (fun prompt_parts =>
  hbind (match csv_markdown with
         | Some c =>
             if truthy csv_markdown
             then hbind (new_list [Prompts.DATASET2_LABEL; c;
                                   Prompts.COMPARATIVE_QUESTION])
                        (fun arg => list_extend prompt_parts arg)
             else list_append prompt_parts Prompts.SINGLE_QUESTION
         | None => list_append prompt_parts Prompts.SINGLE_QUESTION
         end)
        (fun _ =>
  str_join (Prompts.nl ++ Prompts.nl) prompt_parts)).

(** Two blocks that are not like it, for comparison: one prints what it
    is given before building the prompt, the other adds the question to a
    list object of its caller. *)
Definition printing_prompt (generated_markdown : string) : H string :=
  hbind (lift (emit (Stdout generated_markdown))) (fun _ =>
  get_user_prompt_stateful generated_markdown None).

Definition appending_prompt (caller_list : ref) : H string :=
  hbind (list_append caller_list Prompts.SINGLE_QUESTION) (fun _ =>
  str_join (Prompts.nl ++ Prompts.nl) caller_list).

End Store.

(* ===================================================================== *)
(** * Facts about the string operations *)
(* ===================================================================== *)

Unset Implicit Arguments.

Module StrFacts.
Import PyStr.
Local Open Scope string_scope.

Lemma append_nil_r (s : string) : s ++ "" = s.
Proof. induction s as [|a s IH]; simpl; [reflexivity | now rewrite IH]. Qed.

Lemma append_assoc (a b c : string) : (a ++ b) ++ c = a ++ b ++ c.
Proof. induction a as [|x a IH]; simpl; [reflexivity | now rewrite IH]. Qed.

Lemma startswith_spec (p s : string) :
  startswith p s = true <-> exists r, s = p ++ r.
Proof.
  revert s; induction p as [|a p IH]; intros s; simpl.
  - split; [intros _; now exists s | reflexivity].
  - destruct s as [|b s].
    + split; [discriminate | intros [r Hr]; discriminate].
    + rewrite andb_true_iff, Ascii.eqb_eq, IH. split.
      * intros [-> [r ->]]. now exists r.
      * intros [r Hr]. injection Hr as -> ->. split; [reflexivity | now exists r].
Qed.

Lemma contains_spec (t s : string) :
  contains t s = true <-> exists a b, s = a ++ t ++ b.
Proof.
  induction s as [|x s IH].
  - simpl. rewrite orb_false_r, startswith_spec. split.
    + intros [r Hr]. now exists "", r.
    + intros [a [b Hab]]. destruct a; [now exists b | discriminate].
  - cbn [contains]. rewrite orb_true_iff, startswith_spec, IH. split.
    + intros [[r Hr] | [a [b Hab]]].
      * now exists "", r.
      * exists (String x a), b. simpl. now rewrite Hab.
    + intros [a [b Hab]]. destruct a as [|y a].
      * left. now exists b.
      * right. simpl in Hab. injection Hab as _ ->. now exists a, b.
Qed.

Lemma contains_refl (t : string) : contains t t = true.
Proof. apply contains_spec. exists "", "". simpl. now rewrite append_nil_r. Qed.

Lemma contains_app_l (t a b : string) :
  contains t a = true -> contains t (a ++ b) = true.
Proof.
  rewrite !contains_spec. intros [x [y ->]].
  exists x, (y ++ b). now rewrite !append_assoc.
Qed.

Lemma contains_app_r (t a b : string) :
  contains t b = true -> contains t (a ++ b) = true.
Proof.
  rewrite !contains_spec. intros [x [y ->]].
  exists (a ++ x), y. now rewrite !append_assoc.
Qed.

Lemma contains_nil (s : string) : contains "" s = true.
Proof. apply contains_spec. now exists "", s. Qed.

(** Two ways of cutting one string: one cut is inside the other's left
    or right piece. *)
Lemma append_eq_append (a b x y : string) :
  a ++ b = x ++ y ->
  exists m, (a = x ++ m /\ y = m ++ b) \/ (x = a ++ m /\ b = m ++ y).
Proof.
  revert x; induction a as [|c a IH]; intros x H.
  - exists x. right. simpl in *. now split.
  - destruct x as [|d x].
    + exists (String c a). left. simpl in *. now split.
    + simpl in H. injection H as -> H. destruct (IH x H) as [m [[-> ->] | [-> ->]]].
      * exists m. left. now split.
      * exists m. right. now split.
Qed.

Lemma free_of_app (c : ascii) (a b : string) :
  free_of c (a ++ b) = free_of c a && free_of c b.
Proof.
  induction a as [|x a IH]; simpl; [reflexivity|].
  now rewrite IH, andb_assoc.
Qed.

Lemma free_of_cons (c : ascii) (s : string) : free_of c (String c s) = false.
Proof. simpl. now rewrite Ascii.eqb_refl. Qed.

(** A string without [c] that occurs in [a ++ c :: b] occurs in [a] or
    in [b]: it cannot lie across the [c]. *)
Lemma contains_across (c : ascii) (t a b : string) :
  free_of c t = true ->
  contains t (a ++ String c b) = true ->
  contains t a = true \/ contains t b = true.
Proof.
  intros Hfree Hin. apply contains_spec in Hin. destruct Hin as [x [y Hxy]].
  destruct (append_eq_append _ _ _ _ Hxy) as [m [[Ha Hty] | [Hx Hb]]].
  - symmetry in Hty.
    destruct (append_eq_append _ _ _ _ Hty) as [k [[Hm Hcb] | [Ht Hcy]]].
    + left. apply contains_spec. exists x, k. now rewrite Ha, Hm.
    + destruct k as [|d k].
      * left. apply contains_spec. exists x, "".
        rewrite Ha, Ht. now rewrite !append_nil_r.
      * simpl in Hcy. injection Hcy as <- _.
        rewrite Ht, free_of_app, free_of_cons, andb_false_r in Hfree.
        discriminate.
  - destruct m as [|d m].
    + simpl in Hb. destruct t as [|e t]; [left; apply contains_nil|].
      simpl in Hb. injection Hb as <- _.
      rewrite free_of_cons in Hfree. discriminate.
    + simpl in Hb. injection Hb as _ ->.
      right. apply contains_spec. now exists m, y.
Qed.

(** A string without line feeds that occurs in parts joined by blank
    lines occurs in one of the parts. *)
Lemma contains_join (t : string) (parts : list string) :
  free_of LF t = true ->
  parts <> [] ->
  contains t (join (Prompts.nl ++ Prompts.nl) parts) = true ->
  existsb (contains t) parts = true.
Proof.
  intros Hfree. induction parts as [|p rest IH]; intros Hne Hin; [congruence|].
  destruct rest as [|q rest].
  - simpl in *. now rewrite Hin.
  - change (join (Prompts.nl ++ Prompts.nl) (p :: q :: rest))
      with (p ++ String LF (String LF (join (Prompts.nl ++ Prompts.nl) (q :: rest))))
      in Hin.
    cbn [existsb]. apply orb_true_iff.
    destruct (contains_across _ _ _ _ Hfree Hin) as [H | H]; [now left|].
    right. apply IH; [discriminate|].
    destruct (contains_across LF t "" _ Hfree H) as [H' | H']; [|exact H'].
    simpl in H'. rewrite orb_false_r in H'. destruct t; [apply contains_nil | discriminate].
Qed.

End StrFacts.

(* ===================================================================== *)
(** * The prompt builder *)
(* ===================================================================== *)

Module PromptSpec.
Import PyStr StrFacts Prompts.
Local Open Scope string_scope.

(** The separator of [join]: a blank line. *)
Notation "'sep'" := (nl ++ nl) (only parsing).

Lemma get_user_prompt_none (g : string) :
  get_user_prompt g None =
  INTRO ++ sep ++ DATASET1_LABEL ++ sep ++ g ++ sep ++ SINGLE_QUESTION.
Proof. reflexivity. Qed.

Lemma get_user_prompt_some (g c : string) :
  c <> "" ->
  get_user_prompt g (Some c) =
  INTRO ++ sep ++ DATASET1_LABEL ++ sep ++ g ++ sep ++
  DATASET2_LABEL ++ sep ++ c ++ sep ++ COMPARATIVE_QUESTION.
Proof. destruct c; [congruence | reflexivity]. Qed.

Lemma prompt_parts_some (g c : string) :
  c <> "" ->
  prompt_parts g (Some c) =
  [INTRO; DATASET1_LABEL; g; DATASET2_LABEL; c; COMPARATIVE_QUESTION].
Proof. destruct c; [congruence | reflexivity]. Qed.

Lemma contains_trans (t u s : string) :
  contains t u = true -> contains u s = true -> contains t s = true.
Proof.
  rewrite !contains_spec. intros [a [b ->]] [x [y ->]].
  exists (x ++ a), (b ++ y). now rewrite !append_assoc.
Qed.

Lemma not_true_false (b : bool) : (b = true -> False) -> b = false.
Proof. destruct b; [intros H; now destruct H | reflexivity]. Qed.

(** A sentence without line feeds that is in none of the fixed parts of
    the two-table prompt can only come from one of the two tables. *)
Lemma sentence_from_tables (t g c : string) :
  free_of LF t = true ->
  existsb (contains t)
          [INTRO; DATASET1_LABEL; DATASET2_LABEL; COMPARATIVE_QUESTION] = false ->
  c <> "" ->
  contains t (get_user_prompt g (Some c)) = true ->
  contains t g = true \/ contains t c = true.
Proof.
  intros Hfree Hfixed Hc Hin. unfold get_user_prompt in Hin.
  apply contains_join in Hin; [|exact Hfree|rewrite prompt_parts_some by exact Hc; discriminate].
  rewrite prompt_parts_some in Hin by exact Hc.
  cbn [existsb] in Hin, Hfixed.
  do 4 (apply orb_false_elim in Hfixed; destruct Hfixed as [? Hfixed]).
  do 6 (apply orb_prop in Hin; destruct Hin as [Hin | Hin];
        [first [congruence | now left | now right] |]).
  discriminate.
Qed.

(** C9: an empty second table is treated as no second table, the branch
    being chosen by the truthiness of [csv_markdown]. *)
Theorem get_user_prompt_empty_csv (g : string) :
  get_user_prompt g (Some "") = get_user_prompt g None.
Proof. reflexivity. Qed.

(** C10: whatever the arguments, the prompt starts with the sentence
    about two datasets, then the label of dataset 1, then the generated
    table, each separated from the next by a blank line; this holds in
    particular when no second table is given. *)
Theorem get_user_prompt_prefix (g : string) (c : option string) :
  exists rest,
    get_user_prompt g c =
    "Here are two sample datasets in Markdown format." ++ sep ++
    (nl ++ "Dataset 1 (Generated):") ++ sep ++ g ++ rest.
Proof.
  destruct c as [[|a c]|].
  - now exists (sep ++ SINGLE_QUESTION).
  - now exists (sep ++ DATASET2_LABEL ++ sep ++ String a c ++ sep ++ COMPARATIVE_QUESTION).
  - now exists (sep ++ SINGLE_QUESTION).
Qed.

(** C3, as the code has it: with no second table the prompt contains the
    single-dataset question and [g]; with a non-empty second table [c] it
    contains [g], [c] and the comparative question, and the single-dataset
    question is absent from it provided its sentence occurs in neither
    table. *)
Theorem get_user_prompt_contents (g c : string) :
  (contains SINGLE_QUESTION (get_user_prompt g None) = true /\
   contains g (get_user_prompt g None) = true) /\
  (g <> "" -> c <> "" ->
   contains g (get_user_prompt g (Some c)) = true /\
   contains c (get_user_prompt g (Some c)) = true /\
   contains COMPARATIVE_QUESTION (get_user_prompt g (Some c)) = true /\
   (contains SINGLE_SENTENCE g = false ->
    contains SINGLE_SENTENCE c = false ->
    contains SINGLE_SENTENCE (get_user_prompt g (Some c)) = false /\
    contains SINGLE_QUESTION (get_user_prompt g (Some c)) = false)).
Proof.
  split.
  - rewrite get_user_prompt_none. split.
    + do 6 apply contains_app_r. apply contains_refl.
    + do 4 apply contains_app_r. apply contains_app_l, contains_refl.
  - intros _ Hc. rewrite (get_user_prompt_some g c Hc). repeat split.
    + do 4 apply contains_app_r. apply contains_app_l, contains_refl.
    + do 8 apply contains_app_r. apply contains_app_l, contains_refl.
    + do 10 apply contains_app_r. apply contains_refl.
    + rewrite <- (get_user_prompt_some g c Hc).
      apply not_true_false; intros Hin.
      destruct (sentence_from_tables SINGLE_SENTENCE g c eq_refl eq_refl Hc Hin);
        congruence.
    + rewrite <- (get_user_prompt_some g c Hc).
      apply not_true_false; intros Hin.
      assert (Hs : contains SINGLE_SENTENCE (get_user_prompt g (Some c)) = true).
      { apply contains_trans with (u := SINGLE_QUESTION); [|exact Hin].
        apply (contains_app_r SINGLE_SENTENCE nl SINGLE_SENTENCE), contains_refl. }
      destruct (sentence_from_tables SINGLE_SENTENCE g c eq_refl eq_refl Hc Hs);
        congruence.
Qed.

(** The second half of [get_user_prompt_contents] at two small tables. *)
Lemma get_user_prompt_contents_witness :
  contains "| a |" (get_user_prompt "| a |" (Some "| b |")) = true /\
  contains "| b |" (get_user_prompt "| a |" (Some "| b |")) = true /\
  contains COMPARATIVE_QUESTION (get_user_prompt "| a |" (Some "| b |")) = true /\
  contains SINGLE_SENTENCE (get_user_prompt "| a |" (Some "| b |")) = false /\
  contains SINGLE_QUESTION (get_user_prompt "| a |" (Some "| b |")) = false.
Proof.
  assert (Ha : "| a |" <> "") by discriminate.
  assert (Hb : "| b |" <> "") by discriminate.
  destruct (proj2 (get_user_prompt_contents "| a |" "| b |") Ha Hb)
    as [Hg [Hc [Hq Habs]]].
  destruct (Habs eq_refl eq_refl) as [H1 H2].
  repeat split; assumption.
Defined.

(** C3 as stated fails: two non-empty tables, the first being the text of
    the single-dataset sentence, give a two-table prompt in which the
    single-dataset question occurs. *)
Lemma get_user_prompt_single_question_present :
  SINGLE_SENTENCE <> "" /\ "| b |" <> "" /\
  contains SINGLE_QUESTION
           (get_user_prompt SINGLE_SENTENCE (Some "| b |")) = true.
Proof.
  split; [|split].
  - intros H. apply (f_equal String.length) in H. vm_compute in H. discriminate.
  - discriminate.
  - vm_compute. reflexivity.
Qed.

End PromptSpec.

(* ===================================================================== *)
(** * The pipeline *)
(* ===================================================================== *)

Module PipelineSpec.
Import PyStr StrFacts Py External Hello.
Local Open Scope string_scope.

(** ** Running blocks *)

Lemma bind_Ok {A B} (m : M A) (k : A -> M B) (w : World) t a :
  m w = (t, Ok a) ->
  bind m k w = ((t ++ fst (k a w))%list, snd (k a w)).
Proof. intros H. unfold bind. rewrite H. now destruct (k a w). Qed.

Lemma bind_Raise {A B} (m : M A) (k : A -> M B) (w : World) t e :
  m w = (t, Raise e) -> bind m k w = (t, Raise e).
Proof. intros H. unfold bind. now rewrite H. Qed.

Lemma try_except_Ok {A} (body : M A) clauses (w : World) t a :
  body w = (t, Ok a) -> try_except body clauses w = (t, Ok a).
Proof. intros H. unfold try_except. now rewrite H. Qed.

Lemma try_except_caught {A} (body : M A) clauses (w : World) t e h :
  body w = (t, Raise e) ->
  select_handler clauses e = Some h ->
  try_except body clauses w = ((t ++ fst (h w))%list, snd (h w)).
Proof. intros H Hh. unfold try_except. rewrite H, Hh. now destruct (h w). Qed.

Lemma try_except_uncaught {A} (body : M A) clauses (w : World) t e :
  body w = (t, Raise e) ->
  select_handler clauses e = None ->
  try_except body clauses w = (t, Raise e).
Proof. intros H Hh. unfold try_except. now rewrite H, Hh. Qed.

Lemma isinstance_any_app (e : exn) (l1 l2 : list string) :
  isinstance_any e (l1 ++ l2)%list = isinstance_any e l1 || isinstance_any e l2.
Proof. apply existsb_app. Qed.

(** ** The sample table *)

Lemma unit_sample_range (raw : N) :
  (0 <= unit_sample raw)%Q /\ (unit_sample raw < 1)%Q.
Proof.
  unfold unit_sample, Qle, Qlt. cbn [Qnum Qden].
  assert (H : (raw mod 2 ^ 53 < 2 ^ 53)%N) by (apply N.mod_lt; discriminate).
  apply N2Z.inj_lt in H.
  change (Z.of_N (2 ^ 53)%N) with (Z.pos (2 ^ 53)%positive) in H.
  pose proof (N2Z.is_nonneg (raw mod 2 ^ 53)%N).
  change (inject_Z 0) with (Qmake 0 1). cbn [Qnum Qden].
  split; lia.
Qed.

(** C4: whatever the generator draws, the sample table is produced (its
    construction cannot raise), it has the three columns Feature_A,
    Feature_B and Target, five rows of three cells each, and every cell
    is a float [q] with [0 <= q < 1]. *)
Theorem generate_sample_shape (w : World) :
  exists df,
    generate_sample w =
      ([Stdout "Generating sample DataFrame..."; CallRand 5 3], Ok df) /\
    columns df = ["Feature_A"; "Feature_B"; "Target"] /\
    length (rows df) = 5 /\
    Forall (fun r => length r = 3) (rows df) /\
    Forall (Forall (fun c => exists q, c = CFloat q /\ (0 <= q)%Q /\ (q < 1)%Q))
           (rows df).
Proof.
  eexists. split; [reflexivity|].
  cbn -[unit_sample]. repeat split.
  - repeat constructor.
  - repeat first
      [ apply Forall_nil
      | apply Forall_cons
      | eexists; split; [reflexivity | apply unit_sample_range] ].
Qed.

(** ** The guards *)



(** X7: the absence is found when the file is loaded: a constructor that
    raises a value or type error leaves [CLIENT] at [None], and the whole
    run consists of the two lines printed then and the configuration
    error. *)
Lemma main_no_client (w : World) (e : exn) :
  import_prompts w = Ok tt ->
  openai_ctor w = Raise e ->
  isinstance_any e ["ValueError"; "TypeError"] = true ->
  main w =
    ([Stdout ("Error initializing OpenAI client: " ++ exc_msg e);
      Stdout "Please ensure the OPENAI_API_KEY environment variable is set.";
      Stderr "OpenAI client not initialized. Cannot proceed."], Ok tt).
Proof.
  intros Hi Hc He.
  unfold main, module_init, bind, try_except, ask, ret, echo, emit.
  rewrite Hi, Hc. cbn [select_handler]. rewrite He. reflexivity.
Qed.

Example main_no_key_run :
  main Samples.w_no_key =
    ([Stdout "Error initializing OpenAI client: api_key must be set";
      Stdout "Please ensure the OPENAI_API_KEY environment variable is set.";
      Stderr "OpenAI client not initialized. Cannot proceed."], Ok tt).
Proof.
  apply (main_no_client Samples.w_no_key (ValueError "api_key must be set"));
    reflexivity.
Defined.

(** ** The stages, one by one *)

Lemma generate_sample_run (w : World) (df : DataFrame cell) :
  snd (generate_sample w) = Ok df ->
  generate_sample w =
    ([Stdout "Generating sample DataFrame..."; CallRand 5 3], Ok df).
Proof.
  intros H.
  cbv beta iota zeta delta
      [generate_sample bind echo emit np_random_rand ret app snd] in *.
  now injection H as <-.
Qed.

(** What the CSV stage prints on standard error for a caught exception. *)
Lemma read_csv_stage_caught (w : World) (e : exn) :
  read_csv w CSV_FILE_PATH = Raise e ->
  isinstance_any e ["FileNotFoundError"; "EmptyDataError"; "ParserError"] = true ->
  read_csv_stage w =
    ([Stdout "Attempting to read CSV file: data/sample_data.csv...";
      CallReadCsv CSV_FILE_PATH;
      Stderr (if isinstance_any e ["FileNotFoundError"]
              then "Warning: CSV file not found at data/sample_data.csv."
              else "Error reading CSV file: " ++ exc_msg e);
      Stdout dashes], Ok None).
Proof.
  intros Hread Hcaught.
  change ["FileNotFoundError"; "EmptyDataError"; "ParserError"]
    with (["FileNotFoundError"] ++ ["EmptyDataError"; "ParserError"])%list in Hcaught.
  rewrite isinstance_any_app in Hcaught.
  unfold read_csv_stage, bind, try_except, pd_read_csv, call, echo, echo_err, emit, ret.
  rewrite Hread. cbn [select_handler].
  destruct (isinstance_any e ["FileNotFoundError"]); cbn [orb] in Hcaught.
  - reflexivity.
  - rewrite Hcaught. reflexivity.
Qed.

Lemma markdown_stage_Ok (w : World) (df : DataFrame cell) (md : string) :
  to_markdown w df = Ok md ->
  markdown_stage df w =
    ([Stdout "Converting generated DataFrame to Markdown...";
      CallToMarkdown df;
      Stdout "Generated Markdown Table:";
      Stdout md;
      Stdout dashes], Ok md).
Proof.
  intros H.
  unfold markdown_stage, bind, df_to_markdown, call, echo, emit, ret.
  rewrite H. reflexivity.
Qed.

Lemma openai_stage_replied (w : World) (md : string) (csv : option string)
      (resp : ChatCompletion) (ch : Choice) (rest : list Choice) :
  chat_create w "gpt-3.5-turbo"
    [MkMessage "system" Prompts.SYSTEM_MESSAGE;
     MkMessage "user" (Prompts.get_user_prompt md csv)] = Ok resp ->
  choices resp = ch :: rest ->
  openai_stage md csv w =
    ([Stdout "Sending data to OpenAI API for analysis...";
      CallGetUserPrompt md csv;
      CallChatCreate "gpt-3.5-turbo"
        [MkMessage "system" Prompts.SYSTEM_MESSAGE;
         MkMessage "user" (Prompts.get_user_prompt md csv)];
      Stdout "OpenAI API Response:";
      Stdout (message_content ch);
      Stdout dashes;
      Stdout "Health check complete."], Ok tt).
Proof.
  intros Hchat Hch.
  unfold openai_stage, bind, try_except, prompts_get_user_prompt,
    client_chat_create, call, echo, emit.
  rewrite Hchat, Hch. reflexivity.
Qed.

Lemma openai_stage_caught (w : World) (md : string) (csv : option string)
      (e : exn) :
  chat_create w "gpt-3.5-turbo"
    [MkMessage "system" Prompts.SYSTEM_MESSAGE;
     MkMessage "user" (Prompts.get_user_prompt md csv)] = Raise e ->
  isinstance_any e ["ValueError"; "TypeError"; "KeyError"] = true ->
  openai_stage md csv w =
    ([Stdout "Sending data to OpenAI API for analysis...";
      CallGetUserPrompt md csv;
      CallChatCreate "gpt-3.5-turbo"
        [MkMessage "system" Prompts.SYSTEM_MESSAGE;
         MkMessage "user" (Prompts.get_user_prompt md csv)];
      Stderr ("Error calling OpenAI API: " ++ exc_msg e);
      Stdout dashes;
      Stdout "Health check complete."], Ok tt).
Proof.
  intros Hchat He.
  unfold openai_stage, bind, try_except, prompts_get_user_prompt,
    client_chat_create, call, echo, echo_err, emit.
  rewrite Hchat. cbn [select_handler]. rewrite He. reflexivity.
Qed.

(** An exception of another class leaves the stage as it came. *)
Lemma openai_stage_uncaught (w : World) (md : string) (csv : option string)
      (e : exn) :
  chat_create w "gpt-3.5-turbo"
    [MkMessage "system" Prompts.SYSTEM_MESSAGE;
     MkMessage "user" (Prompts.get_user_prompt md csv)] = Raise e ->
  isinstance_any e ["ValueError"; "TypeError"; "KeyError"] = false ->
  openai_stage md csv w =
    ([Stdout "Sending data to OpenAI API for analysis...";
      CallGetUserPrompt md csv;
      CallChatCreate "gpt-3.5-turbo"
        [MkMessage "system" Prompts.SYSTEM_MESSAGE;
         MkMessage "user" (Prompts.get_user_prompt md csv)]], Raise e).
Proof.
  intros Hchat He.
  unfold openai_stage, bind, try_except, prompts_get_user_prompt,
    client_chat_create, call, echo, echo_err, emit.
  rewrite Hchat. cbn [select_handler]. rewrite He. reflexivity.
Qed.

(** Past the two guards the command is the preparation of the tables
    followed by the remote stage. *)
Lemma health_check_run (g : Globals) (w : World) (cl : OpenAIClient)
      (t0 : list event) (md : string) (csv : option string) :
  CLIENT g = Some cl ->
  prompts g = true ->
  prepare_tables w = (t0, Ok (md, csv)) ->
  health_check g w =
    ((t0 ++ fst (openai_stage md csv w))%list, snd (openai_stage md csv w)).
Proof.
  intros Hc Hp Hprep. unfold health_check. rewrite Hc, Hp. cbn [negb].
  now rewrite (bind_Ok _ _ w t0 (md, csv) Hprep).
Qed.

(** The preparation when the CSV read ends in a caught exception. *)
Lemma prepare_tables_without_csv (w : World) (e : exn)
      (df : DataFrame cell) (md : string) :
  snd (generate_sample w) = Ok df ->
  read_csv w CSV_FILE_PATH = Raise e ->
  isinstance_any e ["FileNotFoundError"; "EmptyDataError"; "ParserError"] = true ->
  to_markdown w df = Ok md ->
  prepare_tables w =
    ([Stdout "Performing data science health check...";
      Stdout "Generating sample DataFrame...";
      CallRand 5 3;
      Stdout "Sample DataFrame created:";
      Stdout (to_string w df);
      Stdout dashes;
      Stdout "Attempting to read CSV file: data/sample_data.csv...";
      CallReadCsv CSV_FILE_PATH;
      Stderr (if isinstance_any e ["FileNotFoundError"]
              then "Warning: CSV file not found at data/sample_data.csv."
              else "Error reading CSV file: " ++ exc_msg e);
      Stdout dashes;
      Stdout "Converting generated DataFrame to Markdown...";
      CallToMarkdown df;
      Stdout "Generated Markdown Table:";
      Stdout md;
      Stdout dashes], Ok (md, None)).
Proof.
  intros Hgen Hread Hcaught Hmd.
  apply generate_sample_run in Hgen.
  unfold prepare_tables, bind.
  rewrite Hgen, (read_csv_stage_caught w e Hread Hcaught),
    (markdown_stage_Ok w df md Hmd).
  reflexivity.
Qed.

(** ** The remote call *)

(** C1, as the code has it: when the remote call raises an instance of
    ValueError, TypeError or KeyError, the command prints the diagnostic
    on standard error, then the closing two lines, and returns
    normally. *)
Theorem health_check_request_error (g : Globals) (w : World)
        (cl : OpenAIClient) (t0 : list event) (md : string)
        (csv : option string) (e : exn) :
  CLIENT g = Some cl ->
  prompts g = true ->
  prepare_tables w = (t0, Ok (md, csv)) ->
  chat_create w "gpt-3.5-turbo"
    [MkMessage "system" Prompts.SYSTEM_MESSAGE;
     MkMessage "user" (Prompts.get_user_prompt md csv)] = Raise e ->
  isinstance_any e ["ValueError"; "TypeError"; "KeyError"] = true ->
  health_check g w =
    ((t0 ++
      [Stdout "Sending data to OpenAI API for analysis...";
       CallGetUserPrompt md csv;
       CallChatCreate "gpt-3.5-turbo"
         [MkMessage "system" Prompts.SYSTEM_MESSAGE;
          MkMessage "user" (Prompts.get_user_prompt md csv)];
       Stderr ("Error calling OpenAI API: " ++ exc_msg e);
       Stdout dashes;
       Stdout "Health check complete."])%list, Ok tt).
Proof.
  intros Hc Hp Hprep Hchat He.
  rewrite (health_check_run g w cl t0 md csv Hc Hp Hprep).
  now rewrite (openai_stage_caught w md csv e Hchat He).
Qed.

Lemma health_check_request_error_witness :
  exists t0 md csv,
    health_check Samples.globals_ok Samples.w_value_error =
      ((t0 ++
        [Stdout "Sending data to OpenAI API for analysis...";
         CallGetUserPrompt md csv;
         CallChatCreate "gpt-3.5-turbo"
           [MkMessage "system" Prompts.SYSTEM_MESSAGE;
            MkMessage "user" (Prompts.get_user_prompt md csv)];
         Stderr "Error calling OpenAI API: bad request";
         Stdout dashes;
         Stdout "Health check complete."])%list, Ok tt).
Proof.
  do 3 eexists.
  apply (health_check_request_error Samples.globals_ok Samples.w_value_error
           MkClient _ _ _ (ValueError "bad request"));
    reflexivity.
Defined.

(** C1 as stated fails: a connection error raised by the call, and the
    index error raised on a reply without choices, both leave the command
    as exceptions. *)
Lemma health_check_request_error_escapes :
  snd (health_check Samples.globals_ok Samples.w_transport) =
    Raise (ConnectionError "Connection error.") /\
  snd (health_check Samples.globals_ok Samples.w_empty_choices) =
    Raise (IndexError "list index out of range").
Proof. split; vm_compute; reflexivity. Qed.

(** X14: every exception of the call outside the three classes goes on
    to the caller of the command. *)
Lemma health_check_request_error_uncaught (g : Globals) (w : World)
      (cl : OpenAIClient) (t0 : list event) (md : string)
      (csv : option string) (e : exn) :
  CLIENT g = Some cl ->
  prompts g = true ->
  prepare_tables w = (t0, Ok (md, csv)) ->
  chat_create w "gpt-3.5-turbo"
    [MkMessage "system" Prompts.SYSTEM_MESSAGE;
     MkMessage "user" (Prompts.get_user_prompt md csv)] = Raise e ->
  isinstance_any e ["ValueError"; "TypeError"; "KeyError"] = false ->
  snd (health_check g w) = Raise e.
Proof.
  intros Hc Hp Hprep Hchat He.
  rewrite (health_check_run g w cl t0 md csv Hc Hp Hprep).
  now rewrite (openai_stage_uncaught w md csv e Hchat He).
Qed.

(** ** The CSV file *)

Lemma no_dataset2_without_csv (md : string) :
  contains "Dataset 2" md = false ->
  contains "Dataset 2" (Prompts.get_user_prompt md None) = false.
Proof.
  intros Hmd. apply PromptSpec.not_true_false. intros Hin.
  unfold Prompts.get_user_prompt in Hin.
  apply contains_join in Hin; [|reflexivity|discriminate].
  cbn [Prompts.prompt_parts app existsb] in Hin.
  do 4 (apply orb_prop in Hin; destruct Hin as [Hin | Hin];
        [first [congruence | vm_compute in Hin; discriminate] |]).
  discriminate.
Qed.

(** C5: when reading the CSV file raises FileNotFoundError, EmptyDataError
    or ParserError, the command prints a warning or an error on standard
    error and goes on without the second table: the prompt is built from
    the generated table alone, its parts hold no dataset 2 label, the text
    "Dataset 2" does not occur in it unless the generated table has it,
    and, the service replying, the command runs to its last line and
    returns normally. *)
Theorem health_check_without_csv (g : Globals) (w : World)
        (cl : OpenAIClient) (e : exn) (df : DataFrame cell) (md : string)
        (resp : ChatCompletion) (ch : Choice) (rest : list Choice) :
  CLIENT g = Some cl ->
  prompts g = true ->
  snd (generate_sample w) = Ok df ->
  read_csv w CSV_FILE_PATH = Raise e ->
  isinstance_any e ["FileNotFoundError"; "EmptyDataError"; "ParserError"] = true ->
  to_markdown w df = Ok md ->
  chat_create w "gpt-3.5-turbo"
    [MkMessage "system" Prompts.SYSTEM_MESSAGE;
     MkMessage "user" (Prompts.get_user_prompt md None)] = Ok resp ->
  choices resp = ch :: rest ->
  health_check g w =
    ([Stdout "Performing data science health check...";
      Stdout "Generating sample DataFrame...";
      CallRand 5 3;
      Stdout "Sample DataFrame created:";
      Stdout (to_string w df);
      Stdout dashes;
      Stdout "Attempting to read CSV file: data/sample_data.csv...";
      CallReadCsv CSV_FILE_PATH;
      Stderr (if isinstance_any e ["FileNotFoundError"]
              then "Warning: CSV file not found at data/sample_data.csv."
              else "Error reading CSV file: " ++ exc_msg e);
      Stdout dashes;
      Stdout "Converting generated DataFrame to Markdown...";
      CallToMarkdown df;
      Stdout "Generated Markdown Table:";
      Stdout md;
      Stdout dashes;
      Stdout "Sending data to OpenAI API for analysis...";
      CallGetUserPrompt md None;
      CallChatCreate "gpt-3.5-turbo"
        [MkMessage "system" Prompts.SYSTEM_MESSAGE;
         MkMessage "user" (Prompts.get_user_prompt md None)];
      Stdout "OpenAI API Response:";
      Stdout (message_content ch);
      Stdout dashes;
      Stdout "Health check complete."], Ok tt) /\
  Prompts.prompt_parts md None =
    [Prompts.INTRO; Prompts.DATASET1_LABEL; md; Prompts.SINGLE_QUESTION] /\
  (contains "Dataset 2" md = false ->
   contains "Dataset 2" (Prompts.get_user_prompt md None) = false).
Proof.
  intros Hc Hp Hgen Hread Hcaught Hmd Hchat Hch.
  split; [|split; [reflexivity | apply no_dataset2_without_csv]].
  rewrite (health_check_run g w cl _ md None Hc Hp
             (prepare_tables_without_csv w e df md Hgen Hread Hcaught Hmd)).
  now rewrite (openai_stage_replied w md None resp ch rest Hchat Hch).
Qed.

Lemma health_check_without_csv_witness :
  exists t,
    health_check Samples.globals_ok Samples.w_no_csv = (t, Ok tt) /\
    In (Stderr "Warning: CSV file not found at data/sample_data.csv.") t /\
    exists md,
      In (CallGetUserPrompt md None) t /\
      contains "Dataset 2" (Prompts.get_user_prompt md None) = false.
Proof.
  edestruct (health_check_without_csv Samples.globals_ok Samples.w_no_csv
               MkClient (FileNotFoundError "No such file or directory"))
    as [Hrun [_ Habs]]; try reflexivity.
  eexists. split; [exact Hrun|]. split.
  - cbn [In isinstance_any existsb isinstance]. do 8 right. left. reflexivity.
  - eexists. split.
    + do 16 right. left. reflexivity.
    + apply Habs. vm_compute. reflexivity.
Defined.

End PipelineSpec.

(* ===================================================================== *)
(** * The Markdown form of a table *)
(* ===================================================================== *)

Module FormatterSpec.
Import PyStr Py External Formatter.
Local Open Scope string_scope.

(** C6: the conversion of a table without columns fails with
    FormatError; the conversion of a table with at least one column and no
    rows succeeds, and its output is the header row and the separator row
    with no data row after them. *)
Theorem to_markdown_empty_shapes {A : Type} (show : A -> string)
        (df : DataFrame A) :
  (columns df = [] -> to_markdown show df = Raise FormatError) /\
  (columns df <> [] -> rows df = [] ->
   md_lines show df =
     [md_row (columns df); md_separator (length (columns df))] /\
   to_markdown show df =
     Ok (md_row (columns df) ++ Prompts.nl ++
         md_separator (length (columns df)))).
Proof.
  destruct df as [cols rws]. cbn [columns rows]. split.
  - intros ->. reflexivity.
  - intros Hcols ->. split; [reflexivity|].
    destruct cols as [|c cols]; [congruence | reflexivity].
Qed.

Lemma to_markdown_empty_shapes_witness :
  to_markdown show_Z (MkDataFrame [] [[1%Z]]) = Raise FormatError /\
  to_markdown show_Z (MkDataFrame ["A"; "B"] []) = Ok "| A | B |
|---|---|".
Proof.
  split.
  - apply (proj1 (to_markdown_empty_shapes show_Z (MkDataFrame [] [[1%Z]]))).
    reflexivity.
  - apply (proj2 (to_markdown_empty_shapes show_Z (MkDataFrame ["A"; "B"] []))).
    + discriminate.
    + reflexivity.
Defined.

(** C7: the table with columns A and B and the one row (1, 2) is rendered
    as three lines: a header whose cells are A and B, the separator, and
    one data row whose cells are 1 and 2; no line has a cell for a row
    index. *)
Theorem to_markdown_one_row :
  exists md header separator row,
    to_markdown show_Z (MkDataFrame ["A"; "B"] [[1%Z; 2%Z]]) = Ok md /\
    lines md = [header; separator; row] /\
    row_cells header = [" A "; " B "] /\
    contains "A" header = true /\ contains "B" header = true /\
    row_cells row = [" 1 "; " 2 "] /\
    contains "1" row = true /\ contains "2" row = true.
Proof.
  exists "| A | B |
|---|---|
| 1 | 2 |", "| A | B |", "|---|---|", "| 1 | 2 |".
  repeat split; vm_compute; reflexivity.
Qed.

End FormatterSpec.

(* ===================================================================== *)
(** * More on the prompt builder *)
(* ===================================================================== *)

Module PromptProps.
Import PyStr StrFacts Prompts.
Local Open Scope string_scope.

Lemma length_app (a b : string) :
  String.length (a ++ b) = String.length a + String.length b.
Proof. induction a as [|x a IH]; simpl; [reflexivity | now rewrite IH]. Qed.

Lemma length_zero (s : string) : String.length s = 0 -> s = "".
Proof. destruct s; [reflexivity | discriminate]. Qed.

Lemma append_inv_head (a x y : string) : a ++ x = a ++ y -> x = y.
Proof.
  induction a as [|c a IH]; simpl; intros H; [exact H|].
  injection H as H. now apply IH.
Qed.

(** Two cuts of one string with tails of the same length are the same
    cut. *)
Lemma append_inv_tail (a b x y : string) :
  a ++ x = b ++ y -> String.length x = String.length y -> a = b /\ x = y.
Proof.
  intros H Hlen.
  destruct (append_eq_append a x b y H) as [m [[Ha Hy] | [Hb Hx]]].
  - rewrite Hy, length_app in Hlen.
    assert (Hm : m = "") by (apply length_zero; lia).
    subst m. rewrite append_nil_r in Ha. simpl in Hy. now split.
  - rewrite Hx, length_app in Hlen.
    assert (Hm : m = "") by (apply length_zero; lia).
    subst m. rewrite append_nil_r in Hb. simpl in Hx. now split.
Qed.

(** The prompt around the generated table: what stands before it and,
    per branch, what stands after it. *)
Lemma get_user_prompt_split (g : string) (c : option string) :
  exists tail,
    (forall g', get_user_prompt g' c =
                (INTRO ++ (nl ++ nl) ++ DATASET1_LABEL ++ (nl ++ nl)) ++ g' ++ tail).
Proof.
  destruct c as [[|a c]|].
  - exists ((nl ++ nl) ++ SINGLE_QUESTION). reflexivity.
  - exists ((nl ++ nl) ++ DATASET2_LABEL ++ (nl ++ nl) ++ String a c ++
            (nl ++ nl) ++ COMPARATIVE_QUESTION). reflexivity.
  - exists ((nl ++ nl) ++ SINGLE_QUESTION). reflexivity.
Qed.

(** X1: for a fixed second argument the prompt determines the generated
    table: two generated tables that give the same prompt are equal. *)
Theorem get_user_prompt_injective_generated (g1 g2 : string)
        (c : option string) :
  get_user_prompt g1 c = get_user_prompt g2 c -> g1 = g2.
Proof.
  destruct (get_user_prompt_split g1 c) as [tail Htail].
  rewrite (Htail g1), (Htail g2). intros H.
  apply append_inv_head in H.
  now destruct (append_inv_tail g1 g2 tail tail H eq_refl).
Qed.

Lemma get_user_prompt_injective_generated_witness :
  "| a |" = "| a |".
Proof.
  apply (get_user_prompt_injective_generated "| a |" "| a |" (Some "| b |")).
  reflexivity.
Defined.

(** X2: for a fixed generated table the prompt determines a non-empty
    second table. *)
Theorem get_user_prompt_injective_csv (g c1 c2 : string) :
  c1 <> "" -> c2 <> "" ->
  get_user_prompt g (Some c1) = get_user_prompt g (Some c2) -> c1 = c2.
Proof.
  intros H1 H2.
  rewrite (PromptSpec.get_user_prompt_some g c1 H1),
          (PromptSpec.get_user_prompt_some g c2 H2).
  intros H.
  do 8 apply append_inv_head in H.
  now destruct (append_inv_tail c1 c2 _ _ H eq_refl).
Qed.

Lemma get_user_prompt_injective_csv_witness :
  "| b |" = "| b |".
Proof.
  apply (get_user_prompt_injective_csv "| a |" "| b |" "| b |");
    [discriminate | discriminate | reflexivity].
Defined.

(** X3: the two tables together are not determined by the prompt: the
    tables are pasted in as they are, so text that looks like the end of
    dataset 1 and the label of dataset 2 can stand in either table and
    give the same prompt. *)
Theorem get_user_prompt_boundary_shift (a b c : string) :
  c <> "" ->
  get_user_prompt (a ++ (nl ++ nl) ++ DATASET2_LABEL ++ (nl ++ nl) ++ b)
                  (Some c) =
  get_user_prompt a
                  (Some (b ++ (nl ++ nl) ++ DATASET2_LABEL ++ (nl ++ nl) ++ c)).
Proof.
  intros Hc.
  rewrite (PromptSpec.get_user_prompt_some _ c Hc).
  rewrite PromptSpec.get_user_prompt_some.
  - now rewrite !append_assoc.
  - intros H. apply (f_equal String.length) in H.
    rewrite !length_app in H. simpl in H. lia.
Qed.

Lemma get_user_prompt_boundary_shift_witness :
  get_user_prompt ("| a |" ++ (nl ++ nl) ++ DATASET2_LABEL ++ (nl ++ nl) ++ "| b |")
                  (Some "| c |") =
  get_user_prompt "| a |"
                  (Some ("| b |" ++ (nl ++ nl) ++ DATASET2_LABEL ++ (nl ++ nl) ++ "| c |")).
Proof.
  apply (get_user_prompt_boundary_shift "| a |" "| b |" "| c |").
  discriminate.
Defined.

(** X4: a one-table prompt is never equal to a two-table prompt, whatever
    the tables: the first ends with the single-dataset question, the
    second with the comparative one. *)
Theorem get_user_prompt_variants_differ (g g' c : string) :
  c <> "" ->
  get_user_prompt g None <> get_user_prompt g' (Some c).
Proof.
  intros Hc H.
  rewrite PromptSpec.get_user_prompt_none,
          (PromptSpec.get_user_prompt_some g' c Hc) in H.
  change SINGLE_QUESTION
    with ((nl ++ "Please provide a brief description of this dataset, " ++
           "mentioning the features and potential target variable. " ++
           "What kind of simple analysis could be performed on this dat") ++ "a?")
    in H.
  change COMPARATIVE_QUESTION
    with ((nl ++ "Please provide a brief description of each dataset, " ++
           "mentioning the features and potential target variables. " ++
           "What kind of simple analysis could be performed on each, " ++
           "or potentially by combining the") ++ "m?")
    in H.
  rewrite <- !append_assoc in H.
  destruct (append_inv_tail _ _ "a?" "m?" H eq_refl) as [_ Habs].
  discriminate.
Qed.

Lemma get_user_prompt_variants_differ_witness :
  get_user_prompt "| a |" None <> get_user_prompt "| a |" (Some "| b |").
Proof.
  apply (get_user_prompt_variants_differ "| a |" "| a |" "| b |").
  discriminate.
Defined.

(** X5: the prompt is longer than its tables by a fixed number of
    characters: 246 with one table, 302 with two. *)
Theorem get_user_prompt_length (g c : string) :
  String.length (get_user_prompt g None) = String.length g + 246 /\
  (c <> "" ->
   String.length (get_user_prompt g (Some c)) =
   String.length g + String.length c + 302).
Proof.
  split.
  - rewrite PromptSpec.get_user_prompt_none, !length_app.
    change (String.length INTRO) with 48.
    change (String.length nl) with 1.
    change (String.length DATASET1_LABEL) with 23.
    change (String.length SINGLE_QUESTION) with 169.
    lia.
  - intros Hc.
    rewrite (PromptSpec.get_user_prompt_some g c Hc), !length_app.
    change (String.length INTRO) with 48.
    change (String.length nl) with 1.
    change (String.length DATASET1_LABEL) with 23.
    change (String.length DATASET2_LABEL) with 22.
    change (String.length COMPARATIVE_QUESTION) with 199.
    lia.
Qed.

Lemma get_user_prompt_length_witness :
  String.length (get_user_prompt "| a |" (Some "| b |")) = 5 + 5 + 302.
Proof.
  apply (proj2 (get_user_prompt_length "| a |" "| b |")).
  discriminate.
Defined.

End PromptProps.

(* ===================================================================== *)
(** * More on the pipeline *)
(* ===================================================================== *)

Module PipelineProps.
Import PyStr StrFacts Py External Hello Observe.
Local Open Scope string_scope.

(** ** Every stage, in every world *)

Lemma generate_sample_total (w : World) :
  exists df, generate_sample w =
             ([Stdout "Generating sample DataFrame..."; CallRand 5 3], Ok df).
Proof. eexists. reflexivity. Qed.

(** The CSV stage: the outcome for every answer of [pd.read_csv] and of
    the conversion of the table read. *)
Lemma read_csv_stage_run (w : World) :
  read_csv_stage w =
  match read_csv w CSV_FILE_PATH with
  | Raise e =>
      if isinstance_any e ["FileNotFoundError"] then
        ([Stdout "Attempting to read CSV file: data/sample_data.csv...";
          CallReadCsv CSV_FILE_PATH;
          Stderr "Warning: CSV file not found at data/sample_data.csv.";
          Stdout dashes], Ok None)
      else if isinstance_any e ["EmptyDataError"; "ParserError"] then
        ([Stdout "Attempting to read CSV file: data/sample_data.csv...";
          CallReadCsv CSV_FILE_PATH;
          Stderr ("Error reading CSV file: " ++ exc_msg e);
          Stdout dashes], Ok None)
      else
        ([Stdout "Attempting to read CSV file: data/sample_data.csv...";
          CallReadCsv CSV_FILE_PATH], Raise e)
  | Ok csv_df =>
      match to_markdown w csv_df with
      | Ok c =>
          ([Stdout "Attempting to read CSV file: data/sample_data.csv...";
            CallReadCsv CSV_FILE_PATH;
            Stdout "CSV file read successfully:";
            Stdout (to_string w csv_df);
            Stdout dashes;
            Stdout "Converting CSV DataFrame to Markdown...";
            CallToMarkdown csv_df;
            Stdout "CSV Markdown Table:";
            Stdout c;
            Stdout dashes], Ok (Some c))
      | Raise e =>
          if isinstance_any e ["FileNotFoundError"] then
            ([Stdout "Attempting to read CSV file: data/sample_data.csv...";
              CallReadCsv CSV_FILE_PATH;
              Stdout "CSV file read successfully:";
              Stdout (to_string w csv_df);
              Stdout dashes;
              Stdout "Converting CSV DataFrame to Markdown...";
              CallToMarkdown csv_df;
              Stderr "Warning: CSV file not found at data/sample_data.csv.";
              Stdout dashes], Ok None)
          else if isinstance_any e ["EmptyDataError"; "ParserError"] then
            ([Stdout "Attempting to read CSV file: data/sample_data.csv...";
              CallReadCsv CSV_FILE_PATH;
              Stdout "CSV file read successfully:";
              Stdout (to_string w csv_df);
              Stdout dashes;
              Stdout "Converting CSV DataFrame to Markdown...";
              CallToMarkdown csv_df;
              Stderr ("Error reading CSV file: " ++ exc_msg e);
              Stdout dashes], Ok None)
          else
            ([Stdout "Attempting to read CSV file: data/sample_data.csv...";
              CallReadCsv CSV_FILE_PATH;
              Stdout "CSV file read successfully:";
              Stdout (to_string w csv_df);
              Stdout dashes;
              Stdout "Converting CSV DataFrame to Markdown...";
              CallToMarkdown csv_df], Raise e)
      end
  end.
Proof.
  unfold read_csv_stage, bind, try_except, pd_read_csv, df_to_string,
    df_to_markdown, call, ask, echo, echo_err, emit, ret.
  destruct (read_csv w CSV_FILE_PATH) as [csv_df | e]; cbn [select_handler].
  - destruct (to_markdown w csv_df) as [c | e]; [reflexivity|].
    cbn [select_handler].
    destruct (isinstance_any e ["FileNotFoundError"]); [reflexivity|].
    destruct (isinstance_any e ["EmptyDataError"; "ParserError"]); reflexivity.
  - destruct (isinstance_any e ["FileNotFoundError"]); [reflexivity|].
    destruct (isinstance_any e ["EmptyDataError"; "ParserError"]); reflexivity.
Qed.

(** The conversion of the generated table: line 94 stands in no [try]. *)
Lemma markdown_stage_run (w : World) (df : DataFrame cell) :
  markdown_stage df w =
  match to_markdown w df with
  | Ok md =>
      ([Stdout "Converting generated DataFrame to Markdown...";
        CallToMarkdown df;
        Stdout "Generated Markdown Table:";
        Stdout md;
        Stdout dashes], Ok md)
  | Raise e =>
      ([Stdout "Converting generated DataFrame to Markdown...";
        CallToMarkdown df], Raise e)
  end.
Proof.
  unfold markdown_stage, bind, df_to_markdown, call, echo, emit, ret.
  destruct (to_markdown w df); reflexivity.
Qed.

(** The remote stage, for every answer of the service. *)
Lemma openai_stage_run (w : World) (md : string) (csv : option string) :
  openai_stage md csv w =
  match chat_create w "gpt-3.5-turbo"
          [MkMessage "system" Prompts.SYSTEM_MESSAGE;
           MkMessage "user" (Prompts.get_user_prompt md csv)] with
  | Ok resp =>
      match choices resp with
      | ch :: _ =>
          ([Stdout "Sending data to OpenAI API for analysis...";
            CallGetUserPrompt md csv;
            CallChatCreate "gpt-3.5-turbo"
              [MkMessage "system" Prompts.SYSTEM_MESSAGE;
               MkMessage "user" (Prompts.get_user_prompt md csv)];
            Stdout "OpenAI API Response:";
            Stdout (message_content ch);
            Stdout dashes;
            Stdout "Health check complete."], Ok tt)
      | [] =>
          ([Stdout "Sending data to OpenAI API for analysis...";
            CallGetUserPrompt md csv;
            CallChatCreate "gpt-3.5-turbo"
              [MkMessage "system" Prompts.SYSTEM_MESSAGE;
               MkMessage "user" (Prompts.get_user_prompt md csv)]],
           Raise (IndexError "list index out of range"))
      end
  | Raise e =>
      if isinstance_any e ["ValueError"; "TypeError"; "KeyError"] then
        ([Stdout "Sending data to OpenAI API for analysis...";
          CallGetUserPrompt md csv;
          CallChatCreate "gpt-3.5-turbo"
            [MkMessage "system" Prompts.SYSTEM_MESSAGE;
             MkMessage "user" (Prompts.get_user_prompt md csv)];
          Stderr ("Error calling OpenAI API: " ++ exc_msg e);
          Stdout dashes;
          Stdout "Health check complete."], Ok tt)
      else
        ([Stdout "Sending data to OpenAI API for analysis...";
          CallGetUserPrompt md csv;
          CallChatCreate "gpt-3.5-turbo"
            [MkMessage "system" Prompts.SYSTEM_MESSAGE;
             MkMessage "user" (Prompts.get_user_prompt md csv)]], Raise e)
  end.
Proof.
  unfold openai_stage, bind, try_except, prompts_get_user_prompt,
    client_chat_create, index0, raise, call, echo, echo_err, emit, ret.
  destruct (chat_create w _ _) as [resp | e].
  - destruct (choices resp); reflexivity.
  - cbn [select_handler].
    destruct (isinstance_any e ["ValueError"; "TypeError"; "KeyError"]);
      reflexivity.
Qed.

(** The preparation of the two tables, from the outcomes of its stages. *)
Lemma prepare_tables_run (w : World) (df : DataFrame cell) :
  snd (generate_sample w) = Ok df ->
  prepare_tables w =
  match read_csv_stage w with
  | (tc, Ok csv) =>
      match markdown_stage df w with
      | (tm, Ok md) =>
          (([Stdout "Performing data science health check...";
             Stdout "Generating sample DataFrame...";
             CallRand 5 3;
             Stdout "Sample DataFrame created:";
             Stdout (to_string w df);
             Stdout dashes] ++ tc ++ tm)%list, Ok (md, csv))
      | (tm, Raise e) =>
          (([Stdout "Performing data science health check...";
             Stdout "Generating sample DataFrame...";
             CallRand 5 3;
             Stdout "Sample DataFrame created:";
             Stdout (to_string w df);
             Stdout dashes] ++ tc ++ tm)%list, Raise e)
      end
  | (tc, Raise e) =>
      (([Stdout "Performing data science health check...";
         Stdout "Generating sample DataFrame...";
         CallRand 5 3;
         Stdout "Sample DataFrame created:";
         Stdout (to_string w df);
         Stdout dashes] ++ tc)%list, Raise e)
  end.
Proof.
  intros Hgen. apply PipelineSpec.generate_sample_run in Hgen.
  unfold prepare_tables, bind at 1 2 3 4 5 6. rewrite Hgen.
  cbv beta iota zeta delta [echo emit df_to_string ask ret bind].
  destruct (read_csv_stage w) as [tc [csv | e]]; [|reflexivity].
  destruct (markdown_stage df w) as [tm [md | e]]; cbn [app].
  - now rewrite app_nil_r.
  - reflexivity.
Qed.

(** Past the two guards: the preparation, then the remote stage. *)
Lemma health_check_cases (g : Globals) (w : World) (cl : OpenAIClient) :
  CLIENT g = Some cl ->
  prompts g = true ->
  health_check g w =
  match prepare_tables w with
  | (t0, Ok (md, csv)) =>
      ((t0 ++ fst (openai_stage md csv w))%list, snd (openai_stage md csv w))
  | (t0, Raise e) => (t0, Raise e)
  end.
Proof.
  intros Hc Hp. unfold health_check. rewrite Hc, Hp. cbn [negb].
  unfold bind. destruct (prepare_tables w) as [t0 [[md csv] | e]]; [|reflexivity].
  cbn [fst snd]. now destruct (openai_stage md csv w).
Qed.

(** Case analysis on every answer of the world that a run looks at. *)
Ltac case_world :=
  repeat first
    [ progress cbv beta iota zeta
    | progress cbn [fst snd app]
    | rewrite openai_stage_run
    | match goal with
      | |- context [match read_csv ?w ?p with _ => _ end] =>
          destruct (read_csv w p) eqn:?
      | |- context [match to_markdown ?w ?d with _ => _ end] =>
          destruct (to_markdown w d) eqn:?
      | |- context [if isinstance_any ?e ?l then _ else _] =>
          destruct (isinstance_any e l) eqn:?
      | |- context [match chat_create ?w ?m ?ms with _ => _ end] =>
          destruct (chat_create w m ms) eqn:?
      | |- context [match choices ?r with _ => _ end] =>
          destruct (choices r) eqn:?
      end ].

(** Open a run past the guards into its cases. *)
Ltac open_run g w Hc Hp df Hdf :=
  rewrite (health_check_cases g w _ Hc Hp),
          (prepare_tables_run w df Hdf),
          read_csv_stage_run, markdown_stage_run.

Lemma isinstance_any_csv_classes (e : exn) :
  isinstance_any e ["FileNotFoundError"] = false ->
  isinstance_any e ["EmptyDataError"; "ParserError"] = false ->
  isinstance_any e ["FileNotFoundError"; "EmptyDataError"; "ParserError"] = false.
Proof.
  intros H1 H2.
  change ["FileNotFoundError"; "EmptyDataError"; "ParserError"]
    with (["FileNotFoundError"] ++ ["EmptyDataError"; "ParserError"])%list.
  now rewrite PipelineSpec.isinstance_any_app, H1, H2.
Qed.

Lemma isinstance_any_csv_first (e : exn) :
  isinstance_any e ["FileNotFoundError"; "EmptyDataError"; "ParserError"] = false ->
  isinstance_any e ["FileNotFoundError"] = false /\
  isinstance_any e ["EmptyDataError"; "ParserError"] = false.
Proof.
  change ["FileNotFoundError"; "EmptyDataError"; "ParserError"]
    with (["FileNotFoundError"] ++ ["EmptyDataError"; "ParserError"])%list.
  rewrite PipelineSpec.isinstance_any_app. apply orb_false_elim.
Qed.

(** ** The guards and the start of the script *)

(** X6: with a client but without the prompts module the command prints
    its second configuration error on standard error and returns; nothing
    else happens in the run. *)
Theorem health_check_no_prompts (g : Globals) (w : World)
        (cl : OpenAIClient) :
  CLIENT g = Some cl ->
  prompts g = false ->
  health_check g w =
    ([Stderr "Prompts module not loaded. Cannot proceed."], Ok tt).
Proof.
  intros Hc Hp. unfold health_check. now rewrite Hc, Hp.
Qed.

Lemma health_check_no_prompts_witness :
  health_check (MkGlobals false (Some MkClient)) Samples.w_ok =
    ([Stderr "Prompts module not loaded. Cannot proceed."], Ok tt).
Proof.
  apply (health_check_no_prompts (MkGlobals false (Some MkClient))
                                 Samples.w_ok MkClient);
    reflexivity.
Defined.

(** X8: when the import of the prompts module raises an ImportError and
    the client is built, the script prints the two import lines on
    standard output, then the command prints that the prompts module is
    not loaded, and the script ends normally. *)
Theorem main_import_error (w : World) (e : exn) (cl : OpenAIClient) :
  import_prompts w = Raise e ->
  isinstance_any e ["ImportError"] = true ->
  openai_ctor w = Ok cl ->
  main w =
    ([Stdout "Error: Could not import prompts from 'app' directory.";
      Stdout "Ensure 'app/prompts.py' exists and the 'app' directory is accessible.";
      Stderr "Prompts module not loaded. Cannot proceed."], Ok tt).
Proof.
  intros Hi He Hc.
  unfold main, module_init, bind, try_except, ask, ret, echo, emit.
  rewrite Hi, Hc. cbn [select_handler]. rewrite He. reflexivity.
Qed.

Lemma main_import_error_witness :
  main MoreSamples.w_no_prompts =
    ([Stdout "Error: Could not import prompts from 'app' directory.";
      Stdout "Ensure 'app/prompts.py' exists and the 'app' directory is accessible.";
      Stderr "Prompts module not loaded. Cannot proceed."], Ok tt).
Proof.
  apply (main_import_error MoreSamples.w_no_prompts
           (ImportError "No module named 'app'") MkClient);
    reflexivity.
Defined.

(** X9: the guards at the top of the file catch only ImportError for the
    import and only ValueError and TypeError for the client; an exception
    of another class at either place ends the script there, before the
    command is run and with nothing printed. *)
Theorem main_startup_crash (w : World) (e : exn) :
  (import_prompts w = Raise e /\ isinstance_any e ["ImportError"] = false) \/
  (import_prompts w = Ok tt /\ openai_ctor w = Raise e /\
   isinstance_any e ["ValueError"; "TypeError"] = false) ->
  main w = ([], Raise e).
Proof.
  intros [[Hi He] | [Hi [Hc He]]];
    unfold main, module_init, bind, try_except, ask, ret, echo, emit;
    rewrite Hi; cbn [select_handler].
  - now rewrite He.
  - rewrite Hc. cbn [select_handler]. now rewrite He.
Qed.

Lemma main_startup_crash_witness :
  main MoreSamples.w_ctor_crash =
    ([], Raise (MoreSamples.OpenAIError "The api_key client option must be set")).
Proof.
  apply (main_startup_crash MoreSamples.w_ctor_crash).
  right. repeat split.
Defined.

(** ** Runs past the guards *)

(** X10: with the CSV file read and both tables converted, the prompt is
    built from the two tables, one request is sent, the reply is printed,
    and the command returns normally having written nothing on standard
    error. *)
Theorem health_check_with_csv (g : Globals) (w : World) (cl : OpenAIClient)
        (df csv_df : DataFrame cell) (md c : string)
        (resp : ChatCompletion) (ch : Choice) (rest : list Choice) :
  CLIENT g = Some cl ->
  prompts g = true ->
  snd (generate_sample w) = Ok df ->
  read_csv w CSV_FILE_PATH = Ok csv_df ->
  to_markdown w csv_df = Ok c ->
  to_markdown w df = Ok md ->
  chat_create w "gpt-3.5-turbo"
    [MkMessage "system" Prompts.SYSTEM_MESSAGE;
     MkMessage "user" (Prompts.get_user_prompt md (Some c))] = Ok resp ->
  choices resp = ch :: rest ->
  health_check g w =
    ([Stdout "Performing data science health check...";
      Stdout "Generating sample DataFrame...";
      CallRand 5 3;
      Stdout "Sample DataFrame created:";
      Stdout (to_string w df);
      Stdout dashes;
      Stdout "Attempting to read CSV file: data/sample_data.csv...";
      CallReadCsv CSV_FILE_PATH;
      Stdout "CSV file read successfully:";
      Stdout (to_string w csv_df);
      Stdout dashes;
      Stdout "Converting CSV DataFrame to Markdown...";
      CallToMarkdown csv_df;
      Stdout "CSV Markdown Table:";
      Stdout c;
      Stdout dashes;
      Stdout "Converting generated DataFrame to Markdown...";
      CallToMarkdown df;
      Stdout "Generated Markdown Table:";
      Stdout md;
      Stdout dashes;
      Stdout "Sending data to OpenAI API for analysis...";
      CallGetUserPrompt md (Some c);
      CallChatCreate "gpt-3.5-turbo"
        [MkMessage "system" Prompts.SYSTEM_MESSAGE;
         MkMessage "user" (Prompts.get_user_prompt md (Some c))];
      Stdout "OpenAI API Response:";
      Stdout (message_content ch);
      Stdout dashes;
      Stdout "Health check complete."], Ok tt).
Proof.
  intros Hc Hp Hdf Hread Hcsv Hmd Hchat Hch.
  open_run g w Hc Hp df Hdf.
  rewrite Hread, Hcsv, Hmd. cbv beta iota. cbn [fst snd app].
  rewrite openai_stage_run, Hchat, Hch. reflexivity.
Qed.

Lemma health_check_with_csv_witness :
  exists t,
    health_check Samples.globals_ok Samples.w_ok = (t, Ok tt) /\
    last_event t = Some (Stdout "Health check complete.").
Proof.
  eexists. split.
  - eapply (health_check_with_csv Samples.globals_ok Samples.w_ok MkClient);
      reflexivity.
  - reflexivity.
Defined.

(** X11: an exception of [pd.read_csv] outside FileNotFoundError,
    EmptyDataError and ParserError is not handled: the command raises it
    right after the read, with no table converted, no prompt built and no
    request sent. *)
Theorem health_check_csv_uncaught (g : Globals) (w : World)
        (cl : OpenAIClient) (df : DataFrame cell) (e : exn) :
  CLIENT g = Some cl ->
  prompts g = true ->
  snd (generate_sample w) = Ok df ->
  read_csv w CSV_FILE_PATH = Raise e ->
  isinstance_any e ["FileNotFoundError"; "EmptyDataError"; "ParserError"] = false ->
  health_check g w =
    ([Stdout "Performing data science health check...";
      Stdout "Generating sample DataFrame...";
      CallRand 5 3;
      Stdout "Sample DataFrame created:";
      Stdout (to_string w df);
      Stdout dashes;
      Stdout "Attempting to read CSV file: data/sample_data.csv...";
      CallReadCsv CSV_FILE_PATH], Raise e).
Proof.
  intros Hc Hp Hdf Hread He.
  destruct (isinstance_any_csv_first e He) as [He1 He2].
  open_run g w Hc Hp df Hdf.
  rewrite Hread, He1, He2. reflexivity.
Qed.

Lemma health_check_csv_uncaught_witness :
  snd (health_check Samples.globals_ok MoreSamples.w_csv_denied) =
    Raise (MoreSamples.PermissionError "Permission denied").
Proof.
  erewrite (health_check_csv_uncaught Samples.globals_ok
              MoreSamples.w_csv_denied MkClient);
    reflexivity.
Defined.

(** X12: the conversion of the generated table stands in no [try]: once
    the CSV stage is over, an exception of that conversion leaves the
    command as it is, and the call of the conversion is the last event of
    the run. *)
Theorem health_check_markdown_failure (g : Globals) (w : World)
        (cl : OpenAIClient) (df : DataFrame cell) (tc : list event)
        (csv : option string) (e : exn) :
  CLIENT g = Some cl ->
  prompts g = true ->
  snd (generate_sample w) = Ok df ->
  read_csv_stage w = (tc, Ok csv) ->
  to_markdown w df = Raise e ->
  health_check g w =
    (([Stdout "Performing data science health check...";
       Stdout "Generating sample DataFrame...";
       CallRand 5 3;
       Stdout "Sample DataFrame created:";
       Stdout (to_string w df);
       Stdout dashes] ++ tc ++
      [Stdout "Converting generated DataFrame to Markdown...";
       CallToMarkdown df])%list, Raise e).
Proof.
  intros Hc Hp Hdf Hcsv Hmd.
  rewrite (health_check_cases g w _ Hc Hp), (prepare_tables_run w df Hdf),
    Hcsv, markdown_stage_run, Hmd.
  reflexivity.
Qed.

Lemma health_check_markdown_failure_witness :
  exists t,
    health_check Samples.globals_ok MoreSamples.w_no_tabulate =
      (t, Raise (ImportError "Missing optional dependency 'tabulate'.")) /\
    count is_prompt_call t = 0 /\ count is_chat_call t = 0.
Proof.
  eexists. split.
  - eapply (health_check_markdown_failure Samples.globals_ok
              MoreSamples.w_no_tabulate MkClient);
      reflexivity.
  - split; reflexivity.
Defined.

(** X13: a reply without choices makes line 117 raise IndexError, which
    the handler of the remote stage does not name: the command raises it
    right after the request, and prints neither the reply header nor its
    closing lines. *)
Theorem health_check_empty_choices (g : Globals) (w : World)
        (cl : OpenAIClient) (t0 : list event) (md : string)
        (csv : option string) (resp : ChatCompletion) :
  CLIENT g = Some cl ->
  prompts g = true ->
  prepare_tables w = (t0, Ok (md, csv)) ->
  chat_create w "gpt-3.5-turbo"
    [MkMessage "system" Prompts.SYSTEM_MESSAGE;
     MkMessage "user" (Prompts.get_user_prompt md csv)] = Ok resp ->
  choices resp = [] ->
  health_check g w =
    ((t0 ++
      [Stdout "Sending data to OpenAI API for analysis...";
       CallGetUserPrompt md csv;
       CallChatCreate "gpt-3.5-turbo"
         [MkMessage "system" Prompts.SYSTEM_MESSAGE;
          MkMessage "user" (Prompts.get_user_prompt md csv)]])%list,
     Raise (IndexError "list index out of range")).
Proof.
  intros Hc Hp Hprep Hchat Hch.
  rewrite (health_check_cases g w _ Hc Hp), Hprep, openai_stage_run, Hchat, Hch.
  reflexivity.
Qed.

Lemma health_check_empty_choices_witness :
  snd (health_check Samples.globals_ok Samples.w_empty_choices) =
    Raise (IndexError "list index out of range").
Proof.
  erewrite (health_check_empty_choices Samples.globals_ok
              Samples.w_empty_choices MkClient);
    reflexivity.
Defined.

(** The witness of [PipelineSpec.health_check_request_error_uncaught]. *)
Lemma health_check_request_error_uncaught_witness :
  snd (health_check Samples.globals_ok Samples.w_transport) =
    Raise (ConnectionError "Connection error.").
Proof.
  eapply (PipelineSpec.health_check_request_error_uncaught
            Samples.globals_ok Samples.w_transport MkClient);
    reflexivity.
Defined.

(** X15: of a reply the command prints the content of the first choice
    and nothing of the others, then its closing lines, and returns
    normally. *)
Theorem health_check_replied (g : Globals) (w : World)
        (cl : OpenAIClient) (t0 : list event) (md : string)
        (csv : option string) (resp : ChatCompletion)
        (ch : Choice) (rest : list Choice) :
  CLIENT g = Some cl ->
  prompts g = true ->
  prepare_tables w = (t0, Ok (md, csv)) ->
  chat_create w "gpt-3.5-turbo"
    [MkMessage "system" Prompts.SYSTEM_MESSAGE;
     MkMessage "user" (Prompts.get_user_prompt md csv)] = Ok resp ->
  choices resp = ch :: rest ->
  health_check g w =
    ((t0 ++
      [Stdout "Sending data to OpenAI API for analysis...";
       CallGetUserPrompt md csv;
       CallChatCreate "gpt-3.5-turbo"
         [MkMessage "system" Prompts.SYSTEM_MESSAGE;
          MkMessage "user" (Prompts.get_user_prompt md csv)];
       Stdout "OpenAI API Response:";
       Stdout (message_content ch);
       Stdout dashes;
       Stdout "Health check complete."])%list, Ok tt).
Proof.
  intros Hc Hp Hprep Hchat Hch.
  rewrite (health_check_cases g w _ Hc Hp), Hprep, openai_stage_run, Hchat, Hch.
  reflexivity.
Qed.

Lemma health_check_replied_witness :
  exists t,
    health_check Samples.globals_ok MoreSamples.w_two_choices = (t, Ok tt) /\
    In (Stdout "first") t /\ ~ In (Stdout "second") t.
Proof.
  eexists. split.
  - eapply (health_check_replied Samples.globals_ok
              MoreSamples.w_two_choices MkClient);
      reflexivity.
  - split.
    + apply in_or_app. right. do 4 right. left. reflexivity.
    + intros H. vm_compute in H.
      repeat (destruct H as [H | H]; [discriminate H|]). exact H.
Defined.

(** ** What holds of every run *)

(** X16: the ways the command can raise.  An exception that leaves
    [health_check] is one of: an exception of [pd.read_csv], or of the
    conversion of the CSV table, outside the three classes of the CSV
    handlers; an exception of the conversion of the generated table; an
    exception of the remote call outside ValueError, TypeError and
    KeyError; or the IndexError of a reply without choices. *)
Theorem health_check_failure_modes (g : Globals) (w : World) (e : exn) :
  snd (health_check g w) = Raise e ->
  (read_csv w CSV_FILE_PATH = Raise e /\
   isinstance_any e ["FileNotFoundError"; "EmptyDataError"; "ParserError"] = false) \/
  (exists csv_df,
     read_csv w CSV_FILE_PATH = Ok csv_df /\
     to_markdown w csv_df = Raise e /\
     isinstance_any e ["FileNotFoundError"; "EmptyDataError"; "ParserError"] = false) \/
  (exists df,
     snd (generate_sample w) = Ok df /\ to_markdown w df = Raise e) \/
  (exists md csv,
     chat_create w "gpt-3.5-turbo"
       [MkMessage "system" Prompts.SYSTEM_MESSAGE;
        MkMessage "user" (Prompts.get_user_prompt md csv)] = Raise e /\
     isinstance_any e ["ValueError"; "TypeError"; "KeyError"] = false) \/
  (exists md csv resp,
     chat_create w "gpt-3.5-turbo"
       [MkMessage "system" Prompts.SYSTEM_MESSAGE;
        MkMessage "user" (Prompts.get_user_prompt md csv)] = Ok resp /\
     choices resp = [] /\
     e = IndexError "list index out of range").
Proof.
  destruct (CLIENT g) as [cl|] eqn:Hc;
    [|unfold health_check; rewrite Hc; discriminate].
  destruct (prompts g) eqn:Hp;
    [|unfold health_check; rewrite Hc, Hp; discriminate].
  destruct (generate_sample_total w) as [df Hgen].
  assert (Hdf : snd (generate_sample w) = Ok df) by now rewrite Hgen.
  open_run g w Hc Hp df Hdf.
  case_world; intros H; try discriminate H; injection H as <-.
  all: first
    [ left; split; [reflexivity | now apply isinstance_any_csv_classes]
    | right; left; eexists; split; [reflexivity|];
      split; [eassumption | now apply isinstance_any_csv_classes]
    | right; right; left; eexists; split; eassumption
    | right; right; right; left; do 2 eexists; split; eassumption
    | right; right; right; right; do 3 eexists;
      split; [eassumption|]; split; [eassumption | reflexivity] ].
Qed.

Lemma health_check_failure_modes_witness :
  (read_csv Samples.w_transport CSV_FILE_PATH =
     Raise (ConnectionError "Connection error.") /\
   isinstance_any (ConnectionError "Connection error.")
     ["FileNotFoundError"; "EmptyDataError"; "ParserError"] = false) \/
  (exists csv_df,
     read_csv Samples.w_transport CSV_FILE_PATH = Ok csv_df /\
     to_markdown Samples.w_transport csv_df =
       Raise (ConnectionError "Connection error.") /\
     isinstance_any (ConnectionError "Connection error.")
       ["FileNotFoundError"; "EmptyDataError"; "ParserError"] = false) \/
  (exists df,
     snd (generate_sample Samples.w_transport) = Ok df /\
     to_markdown Samples.w_transport df =
       Raise (ConnectionError "Connection error.")) \/
  (exists md csv,
     chat_create Samples.w_transport "gpt-3.5-turbo"
       [MkMessage "system" Prompts.SYSTEM_MESSAGE;
        MkMessage "user" (Prompts.get_user_prompt md csv)] =
       Raise (ConnectionError "Connection error.") /\
     isinstance_any (ConnectionError "Connection error.")
       ["ValueError"; "TypeError"; "KeyError"] = false) \/
  (exists md csv resp,
     chat_create Samples.w_transport "gpt-3.5-turbo"
       [MkMessage "system" Prompts.SYSTEM_MESSAGE;
        MkMessage "user" (Prompts.get_user_prompt md csv)] = Ok resp /\
     choices resp = [] /\
     ConnectionError "Connection error." =
       IndexError "list index out of range").
Proof.
  apply (health_check_failure_modes Samples.globals_ok Samples.w_transport
           (ConnectionError "Connection error.")).
  vm_compute. reflexivity.
Defined.

(** X17: what reaches the service.  Every request of a run names the
    model gpt-3.5-turbo and carries two messages: the fixed system message,
    then the prompt built from the Markdown form of the generated table
    and, if there is a second table at all, from the Markdown form of the
    table read from the CSV file.  In particular no request is sent unless
    the generated table has been converted. *)
Theorem health_check_request_payload (g : Globals) (w : World)
        (model : string) (msgs : list message) :
  In (CallChatCreate model msgs) (fst (health_check g w)) ->
  model = "gpt-3.5-turbo" /\
  exists df md csv,
    snd (generate_sample w) = Ok df /\
    to_markdown w df = Ok md /\
    msgs = [MkMessage "system" Prompts.SYSTEM_MESSAGE;
            MkMessage "user" (Prompts.get_user_prompt md csv)] /\
    (csv = None \/
     exists csv_df c,
       read_csv w CSV_FILE_PATH = Ok csv_df /\
       to_markdown w csv_df = Ok c /\
       csv = Some c).
Proof.
  destruct (CLIENT g) as [cl|] eqn:Hc;
    [|unfold health_check; rewrite Hc; intros [H | []]; discriminate H].
  destruct (prompts g) eqn:Hp;
    [|unfold health_check; rewrite Hc, Hp; intros [H | []]; discriminate H].
  destruct (generate_sample_total w) as [df Hgen].
  assert (Hdf : snd (generate_sample w) = Ok df) by now rewrite Hgen.
  open_run g w Hc Hp df Hdf.
  case_world; intros H; cbn [In] in H;
    repeat (destruct H as [H | H]; [try discriminate H|]);
    try contradiction.
  all: injection H as <- <-; split; [reflexivity|];
    exists df; do 2 eexists;
    split; [exact Hdf|]; split; [eassumption|]; split; [reflexivity|];
    first [ left; reflexivity
          | right; do 2 eexists; split; [reflexivity|];
            split; [eassumption | reflexivity] ].
Qed.

Lemma health_check_request_payload_witness :
  exists msgs,
    In (CallChatCreate "gpt-3.5-turbo" msgs)
       (fst (health_check Samples.globals_ok Samples.w_no_csv)) /\
    "gpt-3.5-turbo" = "gpt-3.5-turbo" /\
    exists df md csv,
      snd (generate_sample Samples.w_no_csv) = Ok df /\
      to_markdown Samples.w_no_csv df = Ok md /\
      msgs = [MkMessage "system" Prompts.SYSTEM_MESSAGE;
              MkMessage "user" (Prompts.get_user_prompt md csv)] /\
      (csv = None \/
       exists csv_df c,
         read_csv Samples.w_no_csv CSV_FILE_PATH = Ok csv_df /\
         to_markdown Samples.w_no_csv csv_df = Ok c /\
         csv = Some c).
Proof.
  assert (Hin : exists msgs,
             In (CallChatCreate "gpt-3.5-turbo" msgs)
                (fst (health_check Samples.globals_ok Samples.w_no_csv))).
  { eexists. do 17 right. left. reflexivity. }
  destruct Hin as [msgs Hin]. exists msgs. split; [exact Hin|].
  exact (health_check_request_payload Samples.globals_ok Samples.w_no_csv
           "gpt-3.5-turbo" msgs Hin).
Defined.

(** X18: past the two guards, the command returns normally exactly when
    the last thing it did was to print "Health check complete.". *)
Theorem health_check_complete_iff (g : Globals) (w : World)
        (cl : OpenAIClient) :
  CLIENT g = Some cl ->
  prompts g = true ->
  (snd (health_check g w) = Ok tt <->
   last_event (fst (health_check g w)) = Some (Stdout "Health check complete.")).
Proof.
  intros Hc Hp.
  destruct (generate_sample_total w) as [df Hgen].
  assert (Hdf : snd (generate_sample w) = Ok df) by now rewrite Hgen.
  open_run g w Hc Hp df Hdf.
  case_world; unfold last_event; cbn [rev app];
    split; intros H; first [reflexivity | discriminate H].
Qed.

Lemma health_check_complete_iff_witness :
  snd (health_check Samples.globals_ok Samples.w_transport) = Ok tt <->
  last_event (fst (health_check Samples.globals_ok Samples.w_transport)) =
    Some (Stdout "Health check complete.").
Proof.
  apply (health_check_complete_iff Samples.globals_ok Samples.w_transport
                                   MkClient);
    reflexivity.
Defined.

(** X19: whatever the world answers, one run of the command draws the
    sample at most once, reads the CSV file at most once, converts at most
    two tables, builds at most one prompt and sends at most one request. *)
Theorem health_check_call_counts (g : Globals) (w : World) :
  count is_rand_call (fst (health_check g w)) <= 1 /\
  count is_read_csv_call (fst (health_check g w)) <= 1 /\
  count is_to_markdown_call (fst (health_check g w)) <= 2 /\
  count is_prompt_call (fst (health_check g w)) <= 1 /\
  count is_chat_call (fst (health_check g w)) <= 1.
Proof.
  destruct (CLIENT g) as [cl|] eqn:Hc;
    [|unfold health_check; rewrite Hc; cbn; lia].
  destruct (prompts g) eqn:Hp;
    [|unfold health_check; rewrite Hc, Hp; cbn; lia].
  destruct (generate_sample_total w) as [df Hgen].
  assert (Hdf : snd (generate_sample w) = Ok df) by now rewrite Hgen.
  open_run g w Hc Hp df Hdf.
  case_world; unfold count;
    cbn [filter length is_rand_call is_read_csv_call is_to_markdown_call
         is_prompt_call is_chat_call];
    lia.
Qed.

(** ** The conversion of the CSV table *)

(** X20: the [try] of the CSV stage covers the conversion of the table
    read as well as the read: when the file is read but its conversion
    raises EmptyDataError or ParserError (and not FileNotFoundError), the
    stage prints the table, then "Error reading CSV file" on standard
    error, and goes on without a second table. *)
Theorem read_csv_stage_conversion_caught (w : World)
        (csv_df : DataFrame cell) (e : exn) :
  read_csv w CSV_FILE_PATH = Ok csv_df ->
  to_markdown w csv_df = Raise e ->
  isinstance_any e ["FileNotFoundError"] = false ->
  isinstance_any e ["EmptyDataError"; "ParserError"] = true ->
  read_csv_stage w =
    ([Stdout "Attempting to read CSV file: data/sample_data.csv...";
      CallReadCsv CSV_FILE_PATH;
      Stdout "CSV file read successfully:";
      Stdout (to_string w csv_df);
      Stdout dashes;
      Stdout "Converting CSV DataFrame to Markdown...";
      CallToMarkdown csv_df;
      Stderr ("Error reading CSV file: " ++ exc_msg e);
      Stdout dashes], Ok None).
Proof.
  intros Hread Hmd He1 He2.
  now rewrite read_csv_stage_run, Hread, Hmd, He1, He2.
Qed.

Lemma read_csv_stage_conversion_caught_witness :
  snd (read_csv_stage MoreSamples.w_bad_table) = Ok None.
Proof.
  erewrite (read_csv_stage_conversion_caught MoreSamples.w_bad_table);
    reflexivity.
Defined.

End PipelineProps.

(* ===================================================================== *)
(** * The prompt builder leaves no trace *)
(* ===================================================================== *)

Module PromptPurity.
Import PyStr Py External Store.
Local Open Scope string_scope.

(** ** The store *)

Lemma nth_error_fresh (h : heap) (xs : list string) (tail : heap) :
  nth_error (h ++ xs :: tail)%list (length h) = Some xs.
Proof.
  rewrite nth_error_app2 by lia. now rewrite Nat.sub_diag.
Qed.

Lemma store_at_fresh (h : heap) (xs ys : list string) (tail : heap) :
  store_at (length h) ys (h ++ xs :: tail)%list = (h ++ ys :: tail)%list.
Proof.
  unfold store_at.
  rewrite firstn_app, Nat.sub_diag, firstn_all, app_nil_r.
  change (S (length h)) with (1 + length h).
  rewrite <- skipn_skipn, skipn_app, Nat.sub_diag, skipn_all, app_nil_l.
  reflexivity.
Qed.

Lemma firstn_old (h tail : heap) :
  firstn (length h) (h ++ tail)%list = h.
Proof.
  now rewrite firstn_app, Nat.sub_diag, firstn_all, app_nil_r.
Qed.

Lemma nth_error_older (h : heap) (xs ys : list string) :
  nth_error ((h ++ [xs]) ++ [ys])%list (length h) = Some xs.
Proof. rewrite <- app_assoc. apply nth_error_fresh. Qed.

Lemma store_at_older (h : heap) (xs ys zs : list string) :
  store_at (length h) zs ((h ++ [xs]) ++ [ys])%list = (h ++ [zs; ys])%list.
Proof. rewrite <- app_assoc. apply store_at_fresh. Qed.

(** ** The run of the body *)

(** The run of the body from any store in any world: no event, the old
    objects followed by the one or two new ones, and the prompt. *)
Lemma get_user_prompt_stateful_run (g : string) (c : option string)
      (h : heap) (w : World) :
  get_user_prompt_stateful g c h w =
  ([],
   (h ++ Prompts.prompt_parts g c ::
      (if truthy c
       then [[Prompts.DATASET2_LABEL;
              match c with Some s => s | None => "" end;
              Prompts.COMPARATIVE_QUESTION]]
       else []))%list,
   Ok (Prompts.get_user_prompt g c)).
Proof.
  unfold get_user_prompt_stateful, str_join, list_extend, list_append,
    list_get, list_set, new_list, hbind, hret.
  destruct c as [[|a c]|]; cbn [truthy].
  - rewrite nth_error_fresh, store_at_fresh, nth_error_fresh. reflexivity.
  - rewrite nth_error_older, (nth_error_fresh (h ++ [_])%list _ []),
      store_at_older, nth_error_fresh.
    reflexivity.
  - rewrite nth_error_fresh, store_at_fresh, nth_error_fresh. reflexivity.
Qed.

(** C8: run from any two stores in any two worlds with the same two
    arguments, the body of [get_user_prompt] returns the same string, which
    no store and no world can influence; it cannot raise; it produces no
    event, so it prints nothing and calls nothing; and every list object
    that was there before the call is there after it, unchanged: the body
    only writes to the lists it made itself. *)
Theorem get_user_prompt_stateful_pure (g : string) (c : option string)
        (h1 h2 : heap) (w1 w2 : World) :
  outcome_of (get_user_prompt_stateful g c h1 w1) =
    outcome_of (get_user_prompt_stateful g c h2 w2) /\
  outcome_of (get_user_prompt_stateful g c h1 w1) =
    Ok (Prompts.get_user_prompt g c) /\
  events_of (get_user_prompt_stateful g c h1 w1) = [] /\
  firstn (length h1) (heap_of (get_user_prompt_stateful g c h1 w1)) = h1.
Proof.
  rewrite !get_user_prompt_stateful_run.
  unfold outcome_of, events_of, heap_of. cbn [fst snd].
  repeat split. apply firstn_old.
Qed.

(** The four parts of the statement are not free in this setting: a block
    that prints has an event, and a block that appends to a list of its
    caller changes the store it was given and returns what that list
    held. *)
Lemma other_blocks_leave_traces :
  events_of (printing_prompt "| a |" [] Samples.w_ok) = [Stdout "| a |"] /\
  firstn 1 (heap_of (appending_prompt 0 [["x"]] Samples.w_ok)) <> [["x"]] /\
  outcome_of (appending_prompt 0 [["x"]] Samples.w_ok) <>
    outcome_of (appending_prompt 0 [["y"]] Samples.w_ok).
Proof.
  split; [reflexivity|]. split; vm_compute; discriminate.
Qed.

End PromptPurity.
